(** * pokemon_extractor.py: a shallow embedding and its verified properties

    The script reads trading-card JSON files, keeps the records whose
    [supertype] is the literal 'Pokémon', flattens each into a seven-key
    dictionary, and writes the rows as a CSV file and as SQL INSERT
    statements.

    Conventions of the embedding:
    - a Python [str] is a Rocq [string] holding its UTF-8 bytes; equality,
      concatenation and the search for an ASCII substring agree with
      Python's on code points;
    - the value [json.load] returns is a [py]; a dict lists its items in
      insertion order (keys are distinct in every dict the parser builds);
    - [open] + [json.load] on an input path is the environment's
      [json_load]; [Path.glob('*.json')] is the environment's [glob_json];
    - the files the script writes live in a [gmap] from path to content and
      the console is a list of [message]s, threaded through the [io] monad;
    - the built-in [str()] of a value that is not a [str] is an interface
      ([Builtins]): the script reaches it only through an f-string or the
      csv module, on a value that is not a string;
    - output files can be opened for writing, text is written as on a
      POSIX system (no newline translation), and strings are well-formed
      Unicode text. *)

From Stdlib Require Import ZArith String Ascii List Lia.
From Stdlib Require Import Floats.PrimFloat.
From stdpp Require Import base option list strings gmap.

(** ** Exceptions and the error monad *)

(** The exception classes the script tells apart, and one for every other
    subclass of [Exception] (PermissionError, UnicodeDecodeError, ...). *)
Inductive exn : Set :=
| FileNotFoundError
| JSONDecodeError
| AttributeError
| TypeError
| OtherException.

Inductive result (A : Type) : Type :=
| Ok (a : A)
| Raise (e : exn).

Arguments Ok {A} a.
Arguments Raise {A} e.

#[global] Instance result_ret : MRet result := fun A a => Ok a.

#[global] Instance result_bind : MBind result := fun A B f m =>
  match m with
  | Ok a => f a
  | Raise e => Raise e
  end.

(** A list comprehension whose body may raise: left to right, the first
    exception ends it. *)
Fixpoint comprehension {A B : Type} (f : A -> result B) (l : list A) : result (list B) :=
  match l with
  | [] => Ok []
  | x :: rest =>
      y ← f x;
      ys ← comprehension f rest;
      Ok (y :: ys)
  end.

(** ** Python values *)

#[warnings="-register-all"]
Inductive py : Type :=
| PNone
| PBool (b : bool)
| PInt (n : Z)
| PFloat (f : float)
| PStr (s : string)
| PList (items : list py)
| PDict (kv : list (string * py)).

(** What the interpreter provides and the repository does not define. *)
Class Builtins : Type := { py_str : py -> string }.

(** [bool(v)] *)
Definition truthy (v : py) : bool :=
  match v with
  | PNone => false
  | PBool b => b
  | PInt n => negb (Z.eqb n 0)
  | PFloat f => negb (PrimFloat.eqb f 0%float)
  | PStr s => negb (String.eqb s "")
  | PList items => match items with [] => false | _ => true end
  | PDict kv => match kv with [] => false | _ => true end
  end.

(** [v == s] for a string literal [s] *)
Definition py_eq_str (v : py) (s : string) : bool :=
  match v with
  | PStr s' => String.eqb s' s
  | _ => false
  end.

Fixpoint dict_get (kv : list (string * py)) (key : string) : option py :=
  match kv with
  | [] => None
  | (k, v) :: rest => if String.eqb k key then Some v else dict_get rest key
  end.

(** [obj.get(key, default)]: only a dict has the attribute. *)
Definition py_get (obj : py) (key : string) (dflt : py) : result py :=
  match obj with
  | PDict kv => Ok (default dflt (dict_get kv key))
  | _ => Raise AttributeError
  end.

(** Bytes 10xxxxxx continue a UTF-8 character. *)
Definition is_continuation (a : ascii) : bool :=
  let n := nat_of_ascii a in (128 <=? n)%nat && (n <? 192)%nat.

Definition starts_with_continuation (s : string) : bool :=
  match s with
  | String a _ => is_continuation a
  | EmptyString => false
  end.

(** The characters of a [str], each as a one-character [str]. *)
Fixpoint py_chars (s : string) : list string :=
  match s with
  | EmptyString => []
  | String a rest =>
      if starts_with_continuation rest then
        match py_chars rest with
        | ch :: chs => String a ch :: chs
        | [] => [String a EmptyString]
        end
      else String a EmptyString :: py_chars rest
  end.

(** [iter(v)]: a list yields its items, a str its characters, a dict its
    keys; nothing else is iterable. *)
Definition py_iter (v : py) : result (list py) :=
  match v with
  | PList items => Ok items
  | PStr s => Ok (map PStr (py_chars s))
  | PDict kv => Ok (map (fun item => PStr (fst item)) kv)
  | _ => Raise TypeError
  end.

Definition expect_str (v : py) : result string :=
  match v with
  | PStr s => Ok s
  | _ => Raise TypeError
  end.

(** [sep.join(v)] *)
Definition str_join (sep : string) (v : py) : result string :=
  items ← py_iter v;
  strs ← comprehension expect_str items;
  Ok (String.concat sep strs).

(** [format(v, '')], what an f-string field expands to. *)
Definition format_value `{Builtins} (v : py) : string :=
  match v with
  | PStr s => s
  | _ => py_str v
  end.

(** [s.replace(old, new)] for a non-empty [old]: after a match at the
    current position, [skip] counts the bytes of the match still to drop. *)
Fixpoint replace_from (old new s : string) (skip : nat) : string :=
  match s with
  | EmptyString => EmptyString
  | String a rest =>
      match skip with
      | S k => replace_from old new rest k
      | O =>
          if String.prefix old s
          then new +:+ replace_from old new rest (String.length old - 1)
          else String a (replace_from old new rest 0)
      end
  end.

(** [s.replace(old, new)]; an empty [old] matches before every character
    and at the end. *)
Definition str_replace (old new s : string) : string :=
  match old with
  | EmptyString => new +:+ String.concat "" (map (fun ch => ch +:+ new) (py_chars s))
  | _ => replace_from old new s 0
  end.

(** ** The world: written files and the console *)

(** One constructor per [print] of the script; the arguments are the
    values its f-string interpolates. *)
Inductive message : Type :=
| MsgFileNotFound (path : string)
| MsgInvalidJSON (path : string)
| MsgProcessingError (path : string) (e : exn)
| MsgNoJsonFiles (directory : string)
| MsgFound (count : nat)
| MsgProcessing (file_name : string)
| MsgNoData
| MsgExtracted (count : nat)
| MsgWritten (csv_path sql_path : string)
| MsgProcessed (count : nat) (path : string).

Record world : Type := World {
  files : gmap string string;
  console : list message
}.

(** The inputs of a run, which the script only reads. *)
Record env : Type := Env {
  glob_json : string -> list string;
  json_load : string -> result py
}.

Definition io (A : Type) : Type := world -> A * world.

#[global] Instance io_ret : MRet io := fun A a w => (a, w).

#[global] Instance io_bind : MBind io := fun A B f m w =>
  let '(a, w') := m w in f a w'.

Definition print (m : message) : io unit := fun w =>
  (tt, World (files w) (console w ++ [m])).

(** [with open(path, 'w') as f: f.write(content)]: the file is created or
    truncated, then holds exactly [content]. *)
Definition write_file (path content : string) : io unit := fun w =>
  (tt, World (<[path := content]> (files w)) (console w)).

(** ** extract_pokemon_data *)

Module Row.

(** The dictionary [extracted_card]: seven keys, in this order. *)
Record t : Type := Make {
  id : py;
  name : py;
  subtypes : py;
  level : py;
  hp : py;
  types : py;
  weaknesses : py
}.

Definition values (r : t) : list py :=
  [id r; name r; subtypes r; level r; hp r; types r; weaknesses r].

End Row.

Definition target_supertype : string := "Pokémon".

(** [', '.join(card.get(key, [])) if card.get(key) else ''] *)
Definition joined_field (card : py) (key : string) : result py :=
  present ← py_get card key PNone;
  if truthy present then
    v ← py_get card key (PList []);
    s ← str_join ", " v;
    Ok (PStr s)
  else Ok (PStr "").

(** [f"{w.get('type', '')}({w.get('value', '')})"] *)
Definition render_weakness `{Builtins} (w : py) : result string :=
  t ← py_get w "type" (PStr "");
  v ← py_get w "value" (PStr "");
  Ok (format_value t +:+ "(" +:+ format_value v +:+ ")").

Definition weaknesses_field `{Builtins} (card : py) : result py :=
  present ← py_get card "weaknesses" PNone;
  if truthy present then
    v ← py_get card "weaknesses" (PList []);
    ws ← py_iter v;
    rendered ← comprehension render_weakness ws;
    Ok (PStr (String.concat ", " rendered))
  else Ok (PStr "").

(** The body of the loop over [data]: [Ok None] when the card is skipped,
    [Ok (Some row)] when a row is appended. *)
Definition extract_card `{Builtins} (card : py) : result (option Row.t) :=
  supertype ← py_get card "supertype" PNone;
  if py_eq_str supertype target_supertype then
    i ← py_get card "id" (PStr "");
    n ← py_get card "name" (PStr "");
    s ← joined_field card "subtypes";
    l ← py_get card "level" (PStr "");
    h ← py_get card "hp" (PStr "");
    t ← joined_field card "types";
    w ← weaknesses_field card;
    Ok (Some (Row.Make i n s l h t w))
  else Ok None.

(** The loop, with the list [extracted_data] it appends to: an exception
    leaves the loop and the rows appended so far stay in the list. *)
Fixpoint extract_loop `{Builtins} (cards : list py) (extracted_data : list Row.t)
  : list Row.t * option exn :=
  match cards with
  | [] => (extracted_data, None)
  | card :: rest =>
      match extract_card card with
      | Raise e => (extracted_data, Some e)
      | Ok None => extract_loop rest extracted_data
      | Ok (Some extracted_card) => extract_loop rest (extracted_data ++ [extracted_card])
      end
  end.

(** The [try] block: load, then loop. *)
Definition try_extract `{Builtins} (E : env) (json_file_path : string)
  : list Row.t * option exn :=
  match json_load E json_file_path with
  | Raise e => ([], Some e)
  | Ok data =>
      match py_iter data with
      | Raise e => ([], Some e)
      | Ok cards => extract_loop cards []
      end
  end.

(** The [except] clauses. *)
Definition report (json_file_path : string) (e : exn) : message :=
  match e with
  | FileNotFoundError => MsgFileNotFound json_file_path
  | JSONDecodeError => MsgInvalidJSON json_file_path
  | _ => MsgProcessingError json_file_path e
  end.

Definition extract_pokemon_data `{Builtins} (E : env) (json_file_path : string)
  : io (list Row.t) :=
  let '(extracted_data, raised) := try_extract E json_file_path in
  match raised with
  | Some e => _ ← print (report json_file_path e); mret extracted_data
  | None => mret extracted_data
  end.

(** ** write_to_csv *)

Definition comma : ascii := "044"%char.
Definition dquote : ascii := "034"%char.
Definition squote : ascii := "039"%char.
Definition CR : ascii := "013"%char.
Definition LF : ascii := "010"%char.

Definition CRLF : string := String CR (String LF EmptyString).

Definition fieldnames : list string :=
  ["id"; "name"; "subtypes"; "level"; "hp"; "types"; "weaknesses"].

Fixpoint str_exists (p : ascii -> bool) (s : string) : bool :=
  match s with
  | EmptyString => false
  | String a rest => p a || str_exists p rest
  end.

(** csv.writer, dialect excel: [None] is written as the empty field, a str
    as it is, anything else through [str()]. *)
Definition csv_text `{Builtins} (v : py) : string :=
  match v with
  | PNone => ""
  | PStr s => s
  | _ => py_str v
  end.

Definition csv_special (a : ascii) : bool :=
  Ascii.eqb a comma || Ascii.eqb a dquote || Ascii.eqb a CR || Ascii.eqb a LF.

Fixpoint csv_double_quotes (s : string) : string :=
  match s with
  | EmptyString => EmptyString
  | String a rest =>
      if Ascii.eqb a dquote
      then String dquote (String dquote (csv_double_quotes rest))
      else String a (csv_double_quotes rest)
  end.

(** QUOTE_MINIMAL: a field holding the delimiter, the quote character or a
    character of the line terminator is quoted, its quotes doubled. *)
Definition csv_field (s : string) : string :=
  if str_exists csv_special s
  then String dquote (csv_double_quotes s +:+ String dquote EmptyString)
  else s.

(** [writer.writerow(fields)] for the seven-column records written here. *)
Definition csv_writerow (fields : list string) : string :=
  String.concat "," (map csv_field fields) +:+ CRLF.

(** DictWriter.writerow: the values of the row in [fieldnames] order. *)
Definition csv_dictrow `{Builtins} (r : Row.t) : string :=
  csv_writerow (map csv_text (Row.values r)).

Definition csv_content `{Builtins} (data : list Row.t) : string :=
  csv_writerow fieldnames +:+ String.concat "" (map csv_dictrow data).

Definition write_to_csv `{Builtins} (data : list Row.t) (output_file : string) : io unit :=
  match data with
  | [] => print MsgNoData
  | _ => write_file output_file (csv_content data)
  end.

(** ** write_to_sql *)

Definition NL : string := String LF EmptyString.

Definition text_of_lines (lines : list string) : string :=
  String.concat "" (map (fun l => l +:+ NL) lines).

Definition sql_preamble : string :=
  text_of_lines
    [ "-- Pokemon Cards Table Creation";
      "CREATE TABLE IF NOT EXISTS pokemon_cards (";
      "    id VARCHAR(50) PRIMARY KEY,";
      "    name VARCHAR(100) NOT NULL,";
      "    subtypes VARCHAR(100),";
      "    level VARCHAR(10),";
      "    hp VARCHAR(10),";
      "    types VARCHAR(100),";
      "    weaknesses VARCHAR(100)";
      ");";
      "";
      "-- Clear existing data (optional)";
      "-- DELETE FROM pokemon_cards;";
      "";
      "-- Insert statements" ].

(** The inner loop over [card.items()]: a str value has its single quotes
    doubled, any other value is kept. *)
Definition escape_value (value : py) : py :=
  match value with
  | PStr s => PStr (str_replace "'" "''" s)
  | _ => value
  end.

Definition escape_card (card : Row.t) : Row.t :=
  Row.Make (escape_value (Row.id card)) (escape_value (Row.name card))
    (escape_value (Row.subtypes card)) (escape_value (Row.level card))
    (escape_value (Row.hp card)) (escape_value (Row.types card))
    (escape_value (Row.weaknesses card)).

Definition sql_columns : string :=
  "INSERT INTO pokemon_cards (id, name, subtypes, level, hp, types, weaknesses) ".

Definition sql_statement `{Builtins} (card : Row.t) : string :=
  let escaped_card := escape_card card in
  sql_columns +:+ NL +:+
  "VALUES ('" +:+ format_value (Row.id escaped_card) +:+
  "', '" +:+ format_value (Row.name escaped_card) +:+
  "', '" +:+ format_value (Row.subtypes escaped_card) +:+ "', " +:+ NL +:+
  "        '" +:+ format_value (Row.level escaped_card) +:+
  "', '" +:+ format_value (Row.hp escaped_card) +:+
  "', '" +:+ format_value (Row.types escaped_card) +:+
  "', '" +:+ format_value (Row.weaknesses escaped_card) +:+ "');" +:+ NL.

Definition sql_content `{Builtins} (data : list Row.t) : string :=
  sql_preamble +:+ String.concat "" (map sql_statement data).

Definition write_to_sql `{Builtins} (data : list Row.t) (output_file : string) : io unit :=
  match data with
  | [] => print MsgNoData
  | _ => write_file output_file (sql_content data)
  end.

(** ** The drivers *)

(** [output_file.replace('.csv', '.sql')] *)
Definition sql_path (output_file : string) : string :=
  str_replace ".csv" ".sql" output_file.

(** [Path.name]: what follows the last separator. *)
Fixpoint path_name (p : string) : string :=
  match p with
  | EmptyString => EmptyString
  | String a rest =>
      if str_exists (Ascii.eqb "/"%char) rest then path_name rest
      else if Ascii.eqb a "/"%char then rest
      else p
  end.

(** The loop over [json_files], extending [all_data]. *)
Fixpoint extract_all `{Builtins} (E : env) (json_files : list string) (all_data : list Row.t)
  : io (list Row.t) :=
  match json_files with
  | [] => mret all_data
  | json_file :: rest =>
      _ ← print (MsgProcessing (path_name json_file));
      data ← extract_pokemon_data E json_file;
      extract_all E rest (all_data ++ data)
  end.

Definition process_multiple_json_files `{Builtins} (E : env)
    (input_directory output_file : string) : io unit :=
  let json_files := glob_json E input_directory in
  match json_files with
  | [] => print (MsgNoJsonFiles input_directory)
  | _ =>
      _ ← print (MsgFound (length json_files));
      all_data ← extract_all E json_files [];
      _ ← write_to_csv all_data output_file;
      _ ← write_to_sql all_data (sql_path output_file);
      _ ← print (MsgExtracted (length all_data));
      print (MsgWritten output_file (sql_path output_file))
  end.

Definition process_single_file `{Builtins} (E : env)
    (json_file_path output_csv : string) : io unit :=
  data ← extract_pokemon_data E json_file_path;
  _ ← write_to_csv data output_csv;
  _ ← write_to_sql data (sql_path output_csv);
  print (MsgProcessed (length data) json_file_path).

(** The default of [process_single_file]'s second argument. *)
Definition default_output_csv : string := "pokemon_data.csv".

(** ** Sample data *)

(** A stand-in for [str()], for evaluating the examples; the theorems hold
    for every instance. *)
Definition sample_builtins : Builtins :=
  {| py_str := fun v =>
       match v with
       | PNone => "None"
       | PBool true => "True"
       | PBool false => "False"
       | _ => "<object>"
       end |}.

Definition pikachu_items : list (string * py) :=
  [("id", PStr "base1-58"); ("name", PStr "Pikachu");
   ("supertype", PStr "Pokémon"); ("subtypes", PList [PStr "Basic"]);
   ("level", PStr "12"); ("hp", PStr "40");
   ("types", PList [PStr "Lightning"]);
   ("weaknesses", PList [PDict [("type", PStr "Fighting"); ("value", PStr "×2")]])].

Definition pikachu : py := PDict pikachu_items.

(** A record of the target category whose [hp] is the JSON null. *)
Definition null_hp_items : list (string * py) :=
  [("id", PStr "x1-1"); ("name", PStr "Ditto"); ("supertype", PStr "Pokémon"); ("hp", PNone)].

(** A record of the target category whose [name] has a line feed in it
    (the JSON string "Mr.\nMime"), and its row. *)
Definition two_line_items : list (string * py) :=
  [("id", PStr "x1-3"); ("name", PStr ("Mr." +:+ String LF "Mime"));
   ("supertype", PStr "Pokémon")].

Definition two_line_row : Row.t :=
  Row.Make (PStr "x1-3") (PStr ("Mr." +:+ String LF "Mime")) (PStr "") (PStr "") (PStr "")
    (PStr "") (PStr "").

(** A row whose [name] has a single quote in it. *)
Definition farfetchd_row : Row.t :=
  Row.Make (PStr "base1-27") (PStr "Farfetch'd") (PStr "Basic") (PStr "20") (PStr "50")
    (PStr "Colorless") (PStr "Lightning(×2)").

(** A record with no [supertype] key. *)
Definition untyped_items : list (string * py) :=
  [("id", PStr "x1-2"); ("name", PStr "Mystery")].

Definition potion : py :=
  PDict [("id", PStr "base1-94"); ("name", PStr "Potion"); ("supertype", PStr "Trainer")].

Definition pikachu_row : Row.t :=
  Row.Make (PStr "base1-58") (PStr "Pikachu") (PStr "Basic") (PStr "12") (PStr "40")
    (PStr "Lightning") (PStr "Fighting(×2)").

(** The directory cards has one well-formed file, one with a record that
    is not an object, and one that is not JSON; the directory trainers has
    one file without a card of the target category; every other directory
    has no JSON file. *)
Definition sample_env : env :=
  Env (fun directory =>
         if String.eqb directory "cards" then ["cards/base1.json"; "cards/bad.json"; "cards/broken.json"]
         else if String.eqb directory "trainers" then ["trainers/base1.json"]
         else [])
      (fun path =>
         if String.eqb path "cards/base1.json" then Ok (PList [pikachu; potion])
         else if String.eqb path "trainers/base1.json" then Ok (PList [potion])
         else if String.eqb path "cards/bad.json" then Ok (PList [pikachu; PInt 5; pikachu])
         else if String.eqb path "cards/broken.json" then Raise JSONDecodeError
         else Raise FileNotFoundError).

Definition empty_world : world := World ∅ [].



(** [str()] on the values of the examples: a list of one plain string is
    written as Python writes it, between brackets and single quotes. *)
Definition repr_builtins : Builtins :=
  {| py_str := fun v =>
       match v with
       | PNone => "None"
       | PBool true => "True"
       | PBool false => "False"
       | PList [PStr s] => "['" +:+ s +:+ "']"
       | _ => "<object>"
       end |}.

(** A record of the target category whose [name] is an array, and its
    row. *)
Definition list_name_items : list (string * py) :=
  [("id", PStr "x1-9"); ("name", PList [PStr "x"]); ("supertype", PStr "Pokémon")].

Definition list_name_row : Row.t :=
  Row.Make (PStr "x1-9") (PList [PStr "x"]) (PStr "") (PStr "") (PStr "") (PStr "") (PStr "").

(** ** Vocabulary of the statements *)

Definition is_str (v : py) : bool :=
  match v with
  | PStr _ => true
  | _ => false
  end.

Definition is_dict (v : py) : bool :=
  match v with
  | PDict _ => true
  | _ => false
  end.

Definition is_str_list (v : py) : bool :=
  match v with
  | PList items => forallb is_str items
  | _ => false
  end.

Definition is_dict_list (v : py) : bool :=
  match v with
  | PList items => forallb is_dict items
  | _ => false
  end.

Definition field_conforms (check : py -> bool) (kv : list (string * py)) (key : string) : bool :=
  match dict_get kv key with
  | Some v => check v
  | None => true
  end.

(** The documented input format, as far as building a row depends on it:
    [subtypes] and [types], when present, are arrays of strings, and
    [weaknesses], when present, is an array of objects. *)
Definition input_format (kv : list (string * py)) : bool :=
  field_conforms is_str_list kv "subtypes"
  && field_conforms is_str_list kv "types"
  && field_conforms is_dict_list kv "weaknesses".

(** The card is an object whose [supertype] is the target string. *)
Definition is_target (card : py) : bool :=
  match card with
  | PDict kv => py_eq_str (default PNone (dict_get kv "supertype")) target_supertype
  | _ => false
  end.

(** [w] is a weakness object with the strings [t] and [v]. *)
Definition weakness_of (w : py) (tv : string * string) : Prop :=
  exists d, w = PDict d
    /\ dict_get d "type" = Some (PStr (fst tv))
    /\ dict_get d "value" = Some (PStr (snd tv)).

Definition weakness_text (tv : string * string) : string :=
  fst tv +:+ "(" +:+ snd tv +:+ ")".

(** The rows every listed file contributes, in listing order. *)
Definition aggregate `{Builtins} (E : env) (json_files : list string) : list Row.t :=
  flat_map (fun p => fst (try_extract E p)) json_files.

(** What one file adds to the console: nothing unless the [try] block
    raised. *)
Definition failure_messages `{Builtins} (E : env) (p : string) : list message :=
  match snd (try_extract E p) with
  | Some e => [report p e]
  | None => []
  end.

(** What the loop over the files prints. *)
Definition progress_messages `{Builtins} (E : env) (json_files : list string) : list message :=
  flat_map (fun p => MsgProcessing (path_name p) :: failure_messages E p) json_files.

Fixpoint count_char (a : ascii) (s : string) : nat :=
  match s with
  | EmptyString => 0
  | String b rest => (if Ascii.eqb b a then 1 else 0) + count_char a rest
  end.

(** The row holds strings only. *)
Definition text_row (r : Row.t) : bool := forallb is_str (Row.values r).

(** No field of the row is written with a carriage return or a line feed
    in it. *)
Definition single_line_row `{Builtins} (r : Row.t) : bool :=
  forallb (fun v => (count_char CR (csv_text v) =? 0) && (count_char LF (csv_text v) =? 0))
          (Row.values r).

(** Every single quote written twice. *)
Fixpoint double_squotes (s : string) : string :=
  match s with
  | EmptyString => EmptyString
  | String a rest =>
      if Ascii.eqb a squote
      then String squote (String squote (double_squotes rest))
      else String a (double_squotes rest)
  end.

Definition sql_literal (s : string) : string :=
  String squote (double_squotes s +:+ String squote EmptyString).

(** The statement of a row of strings, literal by literal. *)
Definition statement_text (i n s l h t w : string) : string :=
  sql_columns +:+ NL +:+
  "VALUES (" +:+ sql_literal i +:+ ", " +:+ sql_literal n +:+ ", " +:+ sql_literal s
  +:+ ", " +:+ NL +:+ "        " +:+ sql_literal l +:+ ", " +:+ sql_literal h
  +:+ ", " +:+ sql_literal t +:+ ", " +:+ sql_literal w +:+ ");" +:+ NL.

(** A reader of SQL text that collects its string literals: a literal
    opens at a quote; inside it two quotes in a row stand for one quote
    character and a lone quote closes it. The text ends well only outside
    a literal. *)
Inductive lexer_state : Type :=
| Outside
| Inside (acc : string)
| Closing (acc : string).

Fixpoint sql_scan (st : lexer_state) (s : string) : option (list string) :=
  match s with
  | EmptyString =>
      match st with
      | Outside => Some []
      | Inside _ => None
      | Closing acc => Some [acc]
      end
  | String a rest =>
      match st with
      | Outside =>
          if Ascii.eqb a squote then sql_scan (Inside EmptyString) rest
          else sql_scan Outside rest
      | Inside acc =>
          if Ascii.eqb a squote then sql_scan (Closing acc) rest
          else sql_scan (Inside (acc +:+ String a EmptyString)) rest
      | Closing acc =>
          if Ascii.eqb a squote then sql_scan (Inside (acc +:+ String squote EmptyString)) rest
          else cons acc <$> sql_scan Outside rest
      end
  end.

Definition sql_literals (s : string) : option (list string) := sql_scan Outside s.

(** The files after both writers ran on [data]. *)
Definition written `{Builtins} (data : list Row.t) (output_file : string)
    (fs : gmap string string) : gmap string string :=
  match data with
  | [] => fs
  | _ => <[sql_path output_file := sql_content data]> (<[output_file := csv_content data]> fs)
  end.

(** What both writers print on [data]. *)
Definition writer_messages (data : list Row.t) : list message :=
  match data with
  | [] => [MsgNoData; MsgNoData]
  | _ => []
  end.




(** What stands between the quotes of a literal: a string with its single
    quotes doubled, any other value as [str()] gives it. *)
Definition sql_value `{Builtins} (v : py) : string :=
  match v with
  | PStr s => double_squotes s
  | _ => py_str v
  end.

(** The seven strings of a row of strings. *)
Definition text_values (r : Row.t) : list string :=
  map (fun v => match v with PStr s => s | _ => EmptyString end) (Row.values r).

(** * Properties of the extractor *)

Section Extractor.

Context {B : Builtins}.

Lemma extract_card_unfold (kv : list (string * py)) :
  extract_card (PDict kv) =
  if py_eq_str (default PNone (dict_get kv "supertype")) target_supertype then
    s ← joined_field (PDict kv) "subtypes";
    t ← joined_field (PDict kv) "types";
    w ← weaknesses_field (PDict kv);
    Ok (Some (Row.Make (default (PStr "") (dict_get kv "id"))
                       (default (PStr "") (dict_get kv "name")) s
                       (default (PStr "") (dict_get kv "level"))
                       (default (PStr "") (dict_get kv "hp")) t w))
  else Ok None.
Proof. reflexivity. Qed.

Lemma extract_card_only_dict (card : py) (o : option Row.t) :
  extract_card card = Ok o -> exists kv, card = PDict kv.
Proof. destruct card; try discriminate. eauto. Qed.



Lemma extract_card_row_target (card : py) (r : Row.t) :
  extract_card card = Ok (Some r) -> is_target card = true.
Proof.
  intros H. destruct (extract_card_only_dict _ _ H) as [kv ->].
  rewrite extract_card_unfold in H. simpl.
  destruct (py_eq_str _ _); [reflexivity | discriminate].
Qed.

Lemma extract_card_skip_target (card : py) :
  extract_card card = Ok None -> is_target card = false.
Proof.
  intros H. destruct (extract_card_only_dict _ _ H) as [kv ->].
  rewrite extract_card_unfold in H. simpl.
  destruct (py_eq_str _ _); [| reflexivity].
  destruct (joined_field _ "subtypes"); [| discriminate].
  destruct (joined_field _ "types"); [| discriminate].
  destruct (weaknesses_field _); discriminate.
Qed.

Lemma extract_card_not_target (kv : list (string * py)) :
  is_target (PDict kv) = false -> extract_card (PDict kv) = Ok None.
Proof. intros H. rewrite extract_card_unfold. simpl in H. rewrite H. reflexivity. Qed.

(** *** The comma-joined fields *)

Lemma joined_field_unfold (kv : list (string * py)) (key : string) :
  joined_field (PDict kv) key =
  match dict_get kv key with
  | Some v => if truthy v then s ← str_join ", " v; Ok (PStr s) else Ok (PStr "")
  | None => Ok (PStr "")
  end.
Proof. unfold joined_field. simpl. destruct (dict_get kv key); reflexivity. Qed.

Lemma comprehension_expect_str (l : list string) :
  comprehension expect_str (map PStr l) = Ok l.
Proof. induction l as [| s l IH]; simpl; [reflexivity |]. rewrite IH. reflexivity. Qed.

Lemma str_join_strings (sep : string) (l : list string) :
  str_join sep (PList (map PStr l)) = Ok (String.concat sep l).
Proof. unfold str_join. simpl. rewrite comprehension_expect_str. reflexivity. Qed.

Lemma joined_field_strings (kv : list (string * py)) (key : string) (l : list string) :
  dict_get kv key = Some (PList (map PStr l)) ->
  joined_field (PDict kv) key = Ok (PStr (String.concat ", " l)).
Proof.
  intros H. rewrite joined_field_unfold, H.
  destruct l as [| s l]; [reflexivity |].
  cbn [truthy map]. rewrite <- (map_cons PStr), str_join_strings. reflexivity.
Qed.

Lemma joined_field_is_str (card : py) (key : string) (v : py) :
  joined_field card key = Ok v -> is_str v = true.
Proof.
  unfold joined_field. destruct (py_get card key PNone) as [p |]; [| discriminate].
  simpl. destruct (truthy p); [| intros [= <-]; reflexivity].
  destruct (py_get card key (PList [])) as [q |]; [| discriminate]. simpl.
  destruct (str_join ", " q); [| discriminate]. intros [= <-]. reflexivity.
Qed.

Lemma joined_field_falsy (kv : list (string * py)) (key : string) :
  match dict_get kv key with Some v => truthy v = false | None => True end ->
  joined_field (PDict kv) key = Ok (PStr "").
Proof.
  rewrite joined_field_unfold. destruct (dict_get kv key); [| reflexivity].
  intros ->. reflexivity.
Qed.

Lemma forallb_is_str (items : list py) :
  forallb is_str items = true -> exists l, items = map PStr l.
Proof.
  induction items as [| v items IH]; [exists []; reflexivity |].
  simpl. destruct v; try discriminate. simpl. intros H.
  destruct (IH H) as [l ->]. exists (s :: l). reflexivity.
Qed.

Lemma joined_field_conforms (kv : list (string * py)) (key : string) :
  field_conforms is_str_list kv key = true ->
  exists s, joined_field (PDict kv) key = Ok (PStr s).
Proof.
  unfold field_conforms. destruct (dict_get kv key) as [v |] eqn:Hget.
  - destruct v; try discriminate. simpl. intros H.
    destruct (forallb_is_str _ H) as [l ->].
    eexists. apply joined_field_strings. exact Hget.
  - intros _. exists "". rewrite joined_field_unfold, Hget. reflexivity.
Qed.

(** *** The weaknesses field *)

Lemma weaknesses_field_unfold (kv : list (string * py)) :
  weaknesses_field (PDict kv) =
  match dict_get kv "weaknesses" with
  | Some v =>
      if truthy v then
        ws ← py_iter v;
        rendered ← comprehension render_weakness ws;
        Ok (PStr (String.concat ", " rendered))
      else Ok (PStr "")
  | None => Ok (PStr "")
  end.
Proof. unfold weaknesses_field. simpl. destruct (dict_get kv "weaknesses"); reflexivity. Qed.

Lemma weaknesses_field_is_str (card v : py) :
  weaknesses_field card = Ok v -> is_str v = true.
Proof.
  unfold weaknesses_field. destruct (py_get card "weaknesses" PNone) as [p |]; [| discriminate].
  simpl. destruct (truthy p); [| intros [= <-]; reflexivity].
  destruct (py_get card "weaknesses" (PList [])) as [q |]; [| discriminate]. simpl.
  destruct (py_iter q) as [ws |]; [| discriminate]. simpl.
  destruct (comprehension render_weakness ws); [| discriminate].
  intros [= <-]. reflexivity.
Qed.

Lemma weaknesses_field_falsy (kv : list (string * py)) :
  match dict_get kv "weaknesses" with Some v => truthy v = false | None => True end ->
  weaknesses_field (PDict kv) = Ok (PStr "").
Proof.
  rewrite weaknesses_field_unfold. destruct (dict_get kv "weaknesses"); [| reflexivity].
  intros ->. reflexivity.
Qed.

Lemma render_weakness_of (w : py) (tv : string * string) :
  weakness_of w tv -> render_weakness w = Ok (weakness_text tv).
Proof.
  intros (d & -> & Ht & Hv). unfold render_weakness. simpl.
  rewrite Ht, Hv. reflexivity.
Qed.

Lemma comprehension_weaknesses (ws : list py) (tvs : list (string * string)) :
  Forall2 weakness_of ws tvs ->
  comprehension render_weakness ws = Ok (map weakness_text tvs).
Proof.
  induction 1 as [| w tv ws tvs Hw _ IH]; [reflexivity |].
  simpl. rewrite (render_weakness_of _ _ Hw). simpl. rewrite IH. reflexivity.
Qed.

Lemma weaknesses_field_rendered (kv : list (string * py)) (ws : list py)
    (tvs : list (string * string)) :
  dict_get kv "weaknesses" = Some (PList ws) ->
  Forall2 weakness_of ws tvs ->
  weaknesses_field (PDict kv) = Ok (PStr (String.concat ", " (map weakness_text tvs))).
Proof.
  intros Hget Hws. rewrite weaknesses_field_unfold, Hget.
  pose proof (comprehension_weaknesses _ _ Hws) as Hc.
  destruct Hws as [| w tv ws tvs Hw Hws]; [reflexivity |].
  cbn [truthy py_iter mbind result_bind]. rewrite Hc. reflexivity.
Qed.

Lemma comprehension_dicts (ws : list py) :
  forallb is_dict ws = true -> exists l, comprehension render_weakness ws = Ok l.
Proof.
  induction ws as [| w ws IH]; [exists []; reflexivity |].
  simpl. destruct w; try discriminate. simpl. intros H.
  destruct (IH H) as [l Hl]. rewrite Hl. eexists. reflexivity.
Qed.

Lemma weaknesses_field_conforms (kv : list (string * py)) :
  field_conforms is_dict_list kv "weaknesses" = true ->
  exists s, weaknesses_field (PDict kv) = Ok (PStr s).
Proof.
  unfold field_conforms. rewrite weaknesses_field_unfold.
  destruct (dict_get kv "weaknesses") as [v |]; [| exists ""; reflexivity].
  destruct v; try discriminate. simpl is_dict_list. intros H.
  destruct (truthy (PList items)); [| exists ""; reflexivity].
  simpl. destruct (comprehension_dicts _ H) as [l ->]. eexists. reflexivity.
Qed.

Lemma extract_card_conforms (kv : list (string * py)) :
  input_format kv = true ->
  is_target (PDict kv) = true ->
  exists r, extract_card (PDict kv) = Ok (Some r).
Proof.
  unfold input_format. rewrite !andb_true_iff. intros [[Hs Ht] Hw] Htarget.
  rewrite extract_card_unfold. simpl in Htarget. rewrite Htarget.
  destruct (joined_field_conforms _ _ Hs) as [s ->].
  destruct (joined_field_conforms _ _ Ht) as [t ->].
  destruct (weaknesses_field_conforms _ Hw) as [w ->].
  eexists. reflexivity.
Qed.

(** *** The loop over the records *)

Lemma extract_loop_acc (cards : list py) (acc : list Row.t) :
  extract_loop cards acc
  = (acc ++ fst (extract_loop cards []), snd (extract_loop cards [])).
Proof.
  revert acc. induction cards as [| card cards IH]; intros acc; simpl.
  - rewrite app_nil_r. reflexivity.
  - destruct (extract_card card) as [[r |] | e]; simpl.
    + rewrite (IH (acc ++ [r])), (IH [r]). simpl. rewrite <- app_assoc. reflexivity.
    + apply IH.
    + rewrite app_nil_r. reflexivity.
Qed.

Lemma extract_loop_complete (cards : list py) (rows : list Row.t) :
  extract_loop cards [] = (rows, None) ->
  Forall2 (fun card r => extract_card card = Ok (Some r)) (List.filter is_target cards) rows
  /\ Forall (fun card => forall e, extract_card card <> Raise e) cards.
Proof.
  revert rows. induction cards as [| card cards IH]; intros rows; simpl.
  - intros [= <-]. split; constructor.
  - destruct (extract_card card) as [[r |] | e] eqn:Hcard.
    + rewrite extract_loop_acc. intros [= <- Hnone].
      destruct (IH (fst (extract_loop cards []))) as [Hrows Hok].
      { rewrite <- Hnone. apply surjective_pairing. }
      rewrite (extract_card_row_target _ _ Hcard). split.
      * constructor; assumption.
      * constructor; [congruence | assumption].
    + intros Hloop. destruct (IH _ Hloop) as [Hrows Hok].
      rewrite (extract_card_skip_target _ Hcard). split.
      * assumption.
      * constructor; [congruence | assumption].
    + discriminate.
Qed.

Lemma extract_loop_failure (cards : list py) (rows : list Row.t) (e : exn) :
  extract_loop cards [] = (rows, Some e) ->
  exists done card rest,
    cards = done ++ card :: rest
    /\ extract_card card = Raise e
    /\ extract_loop done [] = (rows, None).
Proof.
  revert rows. induction cards as [| card cards IH]; intros rows; simpl; [discriminate |].
  destruct (extract_card card) as [[r |] | e'] eqn:Hcard.
  - rewrite extract_loop_acc. intros [= <- Hsome].
    destruct (IH (fst (extract_loop cards []))) as (done & c & rest & -> & Hc & Hdone).
    { rewrite <- Hsome. apply surjective_pairing. }
    exists (card :: done), c, rest. split; [reflexivity |]. split; [exact Hc |].
    simpl. rewrite Hcard, extract_loop_acc, Hdone. reflexivity.
  - intros Hloop. destruct (IH _ Hloop) as (done & c & rest & -> & Hc & Hdone).
    exists (card :: done), c, rest. split; [reflexivity |]. split; [exact Hc |].
    simpl. rewrite Hcard. exact Hdone.
  - intros [= <- <-]. exists [], card, cards. auto.
Qed.

(** *** One file, then all of them *)

Lemma extract_pokemon_data_run (E : env) (p : string) (w : world) :
  extract_pokemon_data E p w
  = (fst (try_extract E p), World (files w) (console w ++ failure_messages E p)).
Proof.
  unfold extract_pokemon_data, failure_messages.
  destruct (try_extract E p) as [rows [e |]]; simpl; [reflexivity |].
  destruct w as [f c]. unfold mret, io_ret. simpl. rewrite app_nil_r. reflexivity.
Qed.

Lemma extract_all_run (E : env) (json_files : list string) (all_data : list Row.t) (w : world) :
  extract_all E json_files all_data w
  = (all_data ++ aggregate E json_files,
     World (files w) (console w ++ progress_messages E json_files)).
Proof.
  revert all_data w. induction json_files as [| p ps IH]; intros all_data w.
  - destruct w as [f c]. simpl. unfold mret, io_ret. rewrite !app_nil_r. reflexivity.
  - cbn [extract_all]. unfold mbind, io_bind, print.
    rewrite extract_pokemon_data_run, IH. cbn [files console].
    unfold aggregate, progress_messages. cbn [flat_map].
    rewrite <- !app_assoc. reflexivity.
Qed.


(** *** The rows of a file *)











(** C4 (amended). Every row has its seven fields. [subtypes], [types] and
    [weaknesses] are always strings, the empty string when the key is
    absent or its value is empty. [id], [name], [level] and [hp] are the
    empty string when the key is absent and the source value as it is when
    the key is present. *)
Theorem row_fields_defaults (kv : list (string * py)) (r : Row.t) :
  extract_card (PDict kv) = Ok (Some r) ->
  length (Row.values r) = 7
  /\ is_str (Row.subtypes r) = true
  /\ is_str (Row.types r) = true
  /\ is_str (Row.weaknesses r) = true
  /\ Row.id r = default (PStr "") (dict_get kv "id")
  /\ Row.name r = default (PStr "") (dict_get kv "name")
  /\ Row.level r = default (PStr "") (dict_get kv "level")
  /\ Row.hp r = default (PStr "") (dict_get kv "hp")
  /\ (match dict_get kv "subtypes" with Some v => truthy v = false | None => True end ->
      Row.subtypes r = PStr "")
  /\ (match dict_get kv "types" with Some v => truthy v = false | None => True end ->
      Row.types r = PStr "")
  /\ (match dict_get kv "weaknesses" with Some v => truthy v = false | None => True end ->
      Row.weaknesses r = PStr "").
Proof.
  rewrite extract_card_unfold.
  destruct (py_eq_str _ _); [| discriminate].
  destruct (joined_field _ "subtypes") as [s |] eqn:Hs; [| discriminate].
  destruct (joined_field _ "types") as [t |] eqn:Ht; [| discriminate].
  destruct (weaknesses_field _) as [wk |] eqn:Hw; [| discriminate].
  simpl. intros [= <-]. simpl.
  split; [reflexivity |].
  split; [exact (joined_field_is_str _ _ _ Hs) |].
  split; [exact (joined_field_is_str _ _ _ Ht) |].
  split; [exact (weaknesses_field_is_str _ _ Hw) |].
  do 4 (split; [reflexivity |]).
  split; [| split].
  - intros H. rewrite (joined_field_falsy _ _ H) in Hs. congruence.
  - intros H. rewrite (joined_field_falsy _ _ H) in Ht. congruence.
  - intros H. rewrite (weaknesses_field_falsy _ H) in Hw. congruence.
Qed.

(** C10. A record without a [supertype] key is skipped like a record of
    another category: no row, no exception, and the loop goes on with the
    next record. *)
Theorem absent_supertype_skipped (kv : list (string * py)) :
  dict_get kv "supertype" = None ->
  extract_card (PDict kv) = Ok None
  /\ (forall rest acc, extract_loop (PDict kv :: rest) acc = extract_loop rest acc).
Proof.
  intros Hnone.
  assert (Hskip : extract_card (PDict kv) = Ok None).
  { apply extract_card_not_target. simpl. rewrite Hnone. reflexivity. }
  split; [exact Hskip |]. intros rest acc. simpl. rewrite Hskip. reflexivity.
Qed.

End Extractor.

(** ** The extractor on the sample data *)

Example extract_pikachu :
  @extract_card sample_builtins pikachu = Ok (Some pikachu_row).
Proof. reflexivity. Qed.

Example extract_potion : @extract_card sample_builtins potion = Ok None.
Proof. reflexivity. Qed.

(** The scenario of the specification: one weakness, Fire with the
    value ×2. *)
Example extract_fire_weakness :
  @weaknesses_field sample_builtins
     (PDict [("weaknesses", PList [PDict [("type", PStr "Fire"); ("value", PStr "×2")]])])
  = Ok (PStr "Fire(×2)").
Proof. reflexivity. Qed.

(** Outside the input format: a [subtypes] that is a number cannot be
    joined and the record raises; one that is a string is joined character
    by character. *)
Example extract_ill_typed_subtypes :
  @extract_card sample_builtins (PDict [("supertype", PStr "Pokémon"); ("subtypes", PInt 5)])
  = Raise TypeError
  /\ joined_field (PDict [("subtypes", PStr "Bé")]) "subtypes" = Ok (PStr "B, é").
Proof. split; reflexivity. Qed.

(** The comparison is exact: another case or a missing accent is another
    category. *)
Example extract_lowercase :
  @extract_card sample_builtins (PDict [("supertype", PStr "pokémon")]) = Ok None
  /\ @extract_card sample_builtins (PDict [("supertype", PStr "Pokemon")]) = Ok None.
Proof. split; reflexivity. Qed.

Example extract_base1 :
  @try_extract sample_builtins sample_env "cards/base1.json" = ([pikachu_row], None).
Proof. reflexivity. Qed.







(** A weakness object without a [value], and one without either key. *)
Example weakness_defaults :
  @weaknesses_field sample_builtins
     (PDict [("weaknesses", PList [PDict [("type", PStr "Fire")]; PDict []])])
  = Ok (PStr "Fire(), ()").
Proof. reflexivity. Qed.

(** C4, as stated, fails: a key that is present with the value null (or a
    number, a list, ...) is copied as it is, and the row's field is then
    not a string. *)
Lemma row_field_not_string :
  ~ (forall (B : Builtins) (card : py) (r : Row.t),
       extract_card card = Ok (Some r) ->
       forallb is_str (Row.values r) = true).
Proof.
  intros H.
  specialize (H sample_builtins (PDict null_hp_items) _ eq_refl).
  vm_compute in H. discriminate H.
Qed.

Example null_hp_row :
  @extract_card sample_builtins (PDict null_hp_items)
  = Ok (Some (Row.Make (PStr "x1-1") (PStr "Ditto") (PStr "") (PStr "") PNone (PStr "") (PStr ""))).
Proof. reflexivity. Qed.

Lemma row_fields_defaults_witness :
  @extract_card sample_builtins (PDict null_hp_items)
  = Ok (Some (Row.Make (PStr "x1-1") (PStr "Ditto") (PStr "") (PStr "") PNone (PStr "") (PStr "")))
  /\ Row.level (Row.Make (PStr "x1-1") (PStr "Ditto") (PStr "") (PStr "") PNone (PStr "") (PStr ""))
     = default (PStr "") (dict_get null_hp_items "level").
Proof.
  split; [reflexivity |].
  pose proof (@row_fields_defaults sample_builtins null_hp_items _ eq_refl)
    as (_ & _ & _ & _ & _ & _ & Hlevel & _).
  exact Hlevel.
Defined.

Lemma absent_supertype_skipped_witness :
  dict_get untyped_items "supertype" = None
  /\ @extract_card sample_builtins (PDict untyped_items) = Ok None.
Proof.
  split; [reflexivity |].
  exact (proj1 (@absent_supertype_skipped sample_builtins untyped_items eq_refl)).
Defined.

(** * Properties of the tabular writer *)

Section Csv.

Context {B : Builtins}.

Lemma count_char_app (a : ascii) (s1 s2 : string) :
  count_char a (s1 +:+ s2) = count_char a s1 + count_char a s2.
Proof. induction s1 as [| b s1 IH]; simpl; [reflexivity |]. rewrite IH. lia. Qed.

Lemma string_app_cons (a : ascii) (s t : string) :
  String a s +:+ t = String a (s +:+ t).
Proof. reflexivity. Qed.

Lemma string_app_nil_l (s : string) : "" +:+ s = s.
Proof. reflexivity. Qed.

Lemma string_app_nil_r (s : string) : s +:+ "" = s.
Proof.
  induction s as [| a s IH]; [reflexivity |].
  rewrite string_app_cons, IH. reflexivity.
Qed.

Lemma string_app_assoc (s1 s2 s3 : string) : (s1 +:+ s2) +:+ s3 = s1 +:+ s2 +:+ s3.
Proof.
  induction s1 as [| a s1 IH]; [reflexivity |].
  rewrite !string_app_cons, IH. reflexivity.
Qed.

Lemma concat_empty_cons (x : string) (l : list string) :
  String.concat "" (x :: l) = x +:+ String.concat "" l.
Proof. destruct l; simpl; [rewrite string_app_nil_r |]; reflexivity. Qed.

Lemma count_char_concat_empty {A : Type} (a : ascii) (f : A -> string) (l : list A) (n : nat) :
  Forall (fun x => count_char a (f x) = n) l ->
  count_char a (String.concat "" (map f l)) = n * length l.
Proof.
  induction 1 as [| x l Hx _ IH]; [simpl; lia |].
  cbn [map length]. rewrite concat_empty_cons, count_char_app, Hx, IH. lia.
Qed.

Lemma count_char_cons (a b : ascii) (s : string) :
  count_char a (String b s) = (if Ascii.eqb b a then 1 else 0) + count_char a s.
Proof. reflexivity. Qed.

Lemma count_char_other (a b : ascii) (s : string) :
  a <> b -> count_char a (String b s) = count_char a s.
Proof.
  intros Hne. rewrite count_char_cons.
  destruct (Ascii.eqb b a) eqn:E; [apply Ascii.eqb_eq in E; congruence | reflexivity].
Qed.

Lemma count_char_double_quotes (a : ascii) (s : string) :
  a <> dquote -> count_char a (csv_double_quotes s) = count_char a s.
Proof.
  intros Ha. induction s as [| b s IH]; [reflexivity |].
  cbn [csv_double_quotes]. destruct (Ascii.eqb b dquote) eqn:Hb.
  - apply Ascii.eqb_eq in Hb. subst b.
    rewrite !count_char_other by exact Ha. exact IH.
  - rewrite !count_char_cons, IH. reflexivity.
Qed.

Lemma count_char_csv_field (a : ascii) (s : string) :
  a <> dquote -> count_char a (csv_field s) = count_char a s.
Proof.
  intros Ha. unfold csv_field. destruct (str_exists csv_special s); [| reflexivity].
  rewrite count_char_other, count_char_app, count_char_double_quotes by exact Ha.
  rewrite count_char_other by exact Ha. cbn [count_char]. lia.
Qed.

Lemma count_char_joined (a : ascii) (fields : list string) :
  a <> comma -> a <> dquote ->
  Forall (fun s => count_char a s = 0) fields ->
  count_char a (String.concat "," (map csv_field fields)) = 0.
Proof.
  intros Hc Hq. induction 1 as [| s fields Hs _ IH]; [reflexivity |].
  cbn [map String.concat].
  destruct (map csv_field fields) as [| s' rest] eqn:Hmap.
  - rewrite count_char_csv_field, Hs by exact Hq. reflexivity.
  - rewrite !count_char_app, count_char_csv_field, Hs, IH by exact Hq.
    change ","%string with (String comma EmptyString).
    rewrite count_char_other by exact Hc. reflexivity.
Qed.

Lemma single_line_row_fields (r : Row.t) :
  single_line_row r = true ->
  Forall (fun s => count_char CR s = 0) (map csv_text (Row.values r))
  /\ Forall (fun s => count_char LF s = 0) (map csv_text (Row.values r)).
Proof.
  unfold single_line_row. rewrite forallb_forall. intros H.
  split; apply Forall_map, Forall_forall; intros v Hv;
    apply list_elem_of_In, H, andb_true_iff in Hv; destruct Hv as [Hcr Hlf];
    apply Nat.eqb_eq; assumption.
Qed.

Lemma csv_dictrow_one_line (r : Row.t) :
  single_line_row r = true ->
  count_char CR (csv_dictrow r) = 1 /\ count_char LF (csv_dictrow r) = 1.
Proof.
  intros H. destruct (single_line_row_fields r H) as [Hcr Hlf].
  unfold csv_dictrow, csv_writerow. rewrite !count_char_app.
  rewrite !count_char_joined by (assumption || discriminate).
  split; reflexivity.
Qed.

Lemma write_to_csv_run (data : list Row.t) (output_file : string) (w : world) :
  write_to_csv data output_file w =
  (tt, match data with
       | [] => World (files w) (console w ++ [MsgNoData])
       | _ => World (<[output_file := csv_content data]> (files w)) (console w)
       end).
Proof. destruct data; reflexivity. Qed.

(** C5 (amended). For a non-empty sequence of N rows the writer replaces
    the file by one header record with the seven column names id, name,
    subtypes, level, hp, types, weaknesses in that order, followed by one
    record per row, in row order and in the same column order; every
    record ends with CR LF. The output has exactly N+1 lines when no field
    holds a carriage return or a line feed. *)
Theorem csv_header_and_records (data : list Row.t) (output_file : string) (w : world) :
  data <> [] ->
  write_to_csv data output_file w
    = (tt, World (<[output_file := csv_content data]> (files w)) (console w))
  /\ csv_content data
     = ("id,name,subtypes,level,hp,types,weaknesses" +:+ CRLF)
       +:+ String.concat "" (map csv_dictrow data)
  /\ (forall r, csv_dictrow r
        = String.concat ","
            [csv_field (csv_text (Row.id r)); csv_field (csv_text (Row.name r));
             csv_field (csv_text (Row.subtypes r)); csv_field (csv_text (Row.level r));
             csv_field (csv_text (Row.hp r)); csv_field (csv_text (Row.types r));
             csv_field (csv_text (Row.weaknesses r))] +:+ CRLF)
  /\ (Forall (fun r => single_line_row r = true) data ->
      count_char LF (csv_content data) = length data + 1
      /\ count_char CR (csv_content data) = length data + 1).
Proof.
  intros Hdata. split; [| split; [| split]].
  - rewrite write_to_csv_run. destruct data; [contradiction | reflexivity].
  - reflexivity.
  - reflexivity.
  - intros Hrows. unfold csv_content. rewrite !count_char_app.
    rewrite (count_char_concat_empty LF csv_dictrow data 1).
    2: { eapply Forall_impl; [exact Hrows |]. intros r Hr. apply csv_dictrow_one_line, Hr. }
    rewrite (count_char_concat_empty CR csv_dictrow data 1).
    2: { eapply Forall_impl; [exact Hrows |]. intros r Hr. apply csv_dictrow_one_line, Hr. }
    change (count_char LF (csv_writerow fieldnames)) with 1.
    change (count_char CR (csv_writerow fieldnames)) with 1.
    lia.
Qed.

End Csv.

(** ** The tabular writer on the sample data *)

Example csv_pikachu :
  @csv_content sample_builtins [pikachu_row]
  = "id,name,subtypes,level,hp,types,weaknesses" +:+ CRLF
    +:+ "base1-58,Pikachu,Basic,12,40,Lightning,Fighting(×2)" +:+ CRLF.
Proof. reflexivity. Qed.

(** A field with a comma or a quote is quoted and its quotes are doubled. *)
Example csv_field_quoting :
  csv_field "Grass, Water" = String dquote ("Grass, Water" +:+ String dquote "")
  /\ csv_field (String dquote "x") = String dquote (String dquote (String dquote ("x" +:+ String dquote ""))).
Proof. split; reflexivity. Qed.

Example csv_two_line :
  @csv_dictrow sample_builtins two_line_row
  = "x1-3," +:+ String dquote ("Mr." +:+ String LF "Mime" +:+ String dquote ",,,,," +:+ CRLF).
Proof. reflexivity. Qed.

Example two_line_extracted :
  @extract_card sample_builtins (PDict two_line_items) = Ok (Some two_line_row).
Proof. reflexivity. Qed.

(** C5, as stated, fails: a field that holds a line feed is written
    quoted, with the line feed in it, so the record of that row spans two
    lines and one row gives three lines. *)
Lemma csv_more_lines_than_rows :
  ~ (forall (B : Builtins) (data : list Row.t),
       data <> [] -> count_char LF (csv_content data) = length data + 1).
Proof.
  intros H.
  specialize (H sample_builtins [two_line_row] ltac:(discriminate)).
  vm_compute in H. discriminate H.
Qed.

Lemma csv_header_and_records_witness :
  [pikachu_row; pikachu_row] <> []
  /\ count_char LF (@csv_content sample_builtins [pikachu_row; pikachu_row]) = 3.
Proof.
  split; [discriminate |].
  refine (proj1 (proj2 (proj2 (proj2
    (@csv_header_and_records sample_builtins [pikachu_row; pikachu_row] "out.csv" empty_world
       ltac:(discriminate)))) _)).
  repeat constructor.
Defined.

(** * Properties of the statement writer *)

Section Sql.

Context {B : Builtins}.

Lemma replace_squote (s : string) : str_replace "'" "''" s = double_squotes s.
Proof.
  unfold str_replace.
  induction s as [| a s IH]; [reflexivity |].
  cbn [replace_from double_squotes String.prefix String.length Nat.sub].
  change (match ascii_dec "'" a with left _ => String.prefix "" s | right _ => false end)
    with (if ascii_dec squote a then String.prefix "" s else false).
  destruct (Ascii.eqb a squote) eqn:Ha.
  - apply Ascii.eqb_eq in Ha. subst a.
    destruct (ascii_dec squote squote) as [_ | Hne]; [| congruence].
    assert (Hp : String.prefix "" s = true) by (destruct s; reflexivity).
    rewrite Hp, IH. reflexivity.
  - destruct (ascii_dec squote a) as [<- | _].
    + rewrite Ascii.eqb_refl in Ha. discriminate.
    + rewrite IH. reflexivity.
Qed.

Lemma escape_value_str (s : string) : escape_value (PStr s) = PStr (double_squotes s).
Proof. unfold escape_value. rewrite replace_squote. reflexivity. Qed.

(** *** Reading the literals back *)

Lemma sql_scan_plain (pre s : string) :
  count_char squote pre = 0 ->
  sql_scan Outside (pre +:+ s) = sql_scan Outside s.
Proof.
  induction pre as [| a pre IH]; [reflexivity |].
  rewrite count_char_cons, string_app_cons. cbn [sql_scan].
  destruct (Ascii.eqb a squote); [discriminate |]. simpl. exact IH.
Qed.

Lemma sql_scan_inside (v acc s : string) :
  sql_scan (Inside acc) (double_squotes v +:+ s) = sql_scan (Inside (acc +:+ v)) s.
Proof.
  revert acc. induction v as [| a v IH]; intros acc.
  - rewrite string_app_nil_r. reflexivity.
  - cbn [double_squotes]. destruct (Ascii.eqb a squote) eqn:Ha.
    + apply Ascii.eqb_eq in Ha. subst a.
      rewrite !string_app_cons. cbn [sql_scan]. rewrite Ascii.eqb_refl.
      rewrite IH, string_app_assoc. reflexivity.
    + rewrite string_app_cons. cbn [sql_scan]. rewrite Ha.
      rewrite IH, string_app_assoc. reflexivity.
Qed.

(** A literal, then a character that is not a quote: the literal is read
    back as the value it was built from. *)
Lemma sql_scan_literal (v : string) (a : ascii) (s : string) :
  a <> squote ->
  sql_scan Outside (sql_literal v +:+ String a s) = cons v <$> sql_scan Outside s.
Proof.
  intros Ha. unfold sql_literal.
  rewrite string_app_cons. cbn [sql_scan]. rewrite Ascii.eqb_refl.
  rewrite string_app_assoc, sql_scan_inside, string_app_nil_l.
  rewrite !string_app_cons. cbn [sql_scan]. rewrite Ascii.eqb_refl.
  rewrite string_app_nil_l. cbn [sql_scan].
  destruct (Ascii.eqb a squote) eqn:E; [apply Ascii.eqb_eq in E; congruence |].
  reflexivity.
Qed.

Lemma sql_literal_app (v s : string) :
  sql_literal v +:+ s = String squote (double_squotes v +:+ String squote s).
Proof.
  unfold sql_literal. rewrite string_app_cons, string_app_assoc. reflexivity.
Qed.

Lemma sql_statement_text (i n s l h t w : string) :
  sql_statement (Row.Make (PStr i) (PStr n) (PStr s) (PStr l) (PStr h) (PStr t) (PStr w))
  = statement_text i n s l h t w.
Proof.
  unfold sql_statement, statement_text, escape_card. cbn [Row.id Row.name Row.subtypes
    Row.level Row.hp Row.types Row.weaknesses].
  rewrite !escape_value_str. cbn [format_value].
  rewrite !sql_literal_app.
  repeat (rewrite ?string_app_assoc, ?string_app_cons, ?string_app_nil_l).
  reflexivity.
Qed.

Lemma sql_scan_literal_then (v sep s : string) :
  count_char squote sep = 0 -> sep <> "" ->
  sql_scan Outside (sql_literal v +:+ sep +:+ s) = cons v <$> sql_scan Outside s.
Proof.
  intros Hsep Hne. destruct sep as [| a sep]; [contradiction |].
  rewrite count_char_cons in Hsep.
  destruct (Ascii.eqb a squote) eqn:Ha; [discriminate |].
  rewrite string_app_cons, sql_scan_literal.
  - rewrite sql_scan_plain by exact Hsep. reflexivity.
  - intros ->. rewrite Ascii.eqb_refl in Ha. discriminate.
Qed.

Lemma sql_scan_statement (i n s l h t w rest : string) :
  sql_scan Outside (statement_text i n s l h t w +:+ rest)
  = app [i; n; s; l; h; t; w] <$> sql_scan Outside rest.
Proof.
  unfold statement_text. rewrite !string_app_assoc.
  do 3 (rewrite sql_scan_plain by reflexivity).
  do 3 (rewrite sql_scan_literal_then by (reflexivity || discriminate)).
  do 2 (rewrite sql_scan_plain by reflexivity).
  do 4 (rewrite sql_scan_literal_then by (reflexivity || discriminate)).
  rewrite sql_scan_plain by reflexivity.
  destruct (sql_scan Outside rest); reflexivity.
Qed.

Lemma text_row_strings (r : Row.t) :
  text_row r = true ->
  exists i n s l h t w,
    r = Row.Make (PStr i) (PStr n) (PStr s) (PStr l) (PStr h) (PStr t) (PStr w).
Proof.
  assert (Hstr : forall v, is_str v = true -> exists x, v = PStr x)
    by (intros []; try discriminate; eauto).
  destruct r as [i n s l h t w]. unfold text_row.
  cbn [Row.values forallb Row.id Row.name Row.subtypes Row.level Row.hp Row.types
       Row.weaknesses].
  rewrite !andb_true_iff. intros (Hi & Hn & Hs & Hl & Hh & Ht & Hw & _).
  destruct (Hstr _ Hi) as [? ->], (Hstr _ Hn) as [? ->], (Hstr _ Hs) as [? ->],
    (Hstr _ Hl) as [? ->], (Hstr _ Hh) as [? ->], (Hstr _ Ht) as [? ->],
    (Hstr _ Hw) as [? ->].
  repeat eexists.
Qed.

Lemma sql_scan_statements (data : list Row.t) (rest : string) :
  Forall (fun r => text_row r = true) data ->
  sql_scan Outside (String.concat "" (map sql_statement data) +:+ rest)
  = app (flat_map (fun r => map format_value (Row.values r)) data) <$> sql_scan Outside rest.
Proof.
  induction 1 as [| r data Hr _ IH].
  - cbn [map flat_map String.concat]. rewrite string_app_nil_l.
    destruct (sql_scan Outside rest); reflexivity.
  - destruct (text_row_strings r Hr) as (i & n & s & l & h & t & w & ->).
    cbn [map flat_map]. rewrite concat_empty_cons, string_app_assoc.
    rewrite sql_statement_text, sql_scan_statement, IH.
    destruct (sql_scan Outside rest); reflexivity.
Qed.

Lemma write_to_sql_run (data : list Row.t) (output_file : string) (w : world) :
  write_to_sql data output_file w =
  (tt, match data with
       | [] => World (files w) (console w ++ [MsgNoData])
       | _ => World (<[output_file := sql_content data]> (files w)) (console w)
       end).
Proof. destruct data; reflexivity. Qed.

Lemma format_escaped_value (v : py) : format_value (escape_value v) = sql_value v.
Proof. destruct v; try reflexivity. rewrite escape_value_str. reflexivity. Qed.

Lemma text_row_values (r : Row.t) :
  text_row r = true -> map format_value (Row.values r) = text_values r.
Proof.
  intros Hr. destruct (text_row_strings r Hr) as (i & n & s & l & h & t & w & ->).
  reflexivity.
Qed.

Lemma text_rows_values (data : list Row.t) :
  Forall (fun r => text_row r = true) data ->
  flat_map (fun r => map format_value (Row.values r)) data = flat_map text_values data.
Proof.
  induction 1 as [| r data Hr _ IH]; [reflexivity |].
  cbn [flat_map]. rewrite (text_row_values r Hr), IH. reflexivity.
Qed.

(** C6 (amended). The statement writer emits, after the preamble, one
    statement per row. Every statement names the seven columns id, name,
    subtypes, level, hp, types, weaknesses and gives one field after the
    other between single quotes; a field that is a string is written with
    every single quote in it doubled, a field that is not a string as
    [str()] gives it, without escaping. For rows of strings the output,
    read back as SQL text, ends outside a literal and its literals are
    exactly the field values of the rows, in order: no value with a quote
    in it leaves a literal open. *)
Theorem sql_statement_literals (data : list Row.t) :
  (forall r,
     sql_statement r
     = "INSERT INTO pokemon_cards (id, name, subtypes, level, hp, types, weaknesses) " +:+ NL
       +:+ "VALUES ('" +:+ sql_value (Row.id r)
       +:+ "', '" +:+ sql_value (Row.name r)
       +:+ "', '" +:+ sql_value (Row.subtypes r) +:+ "', " +:+ NL
       +:+ "        '" +:+ sql_value (Row.level r)
       +:+ "', '" +:+ sql_value (Row.hp r)
       +:+ "', '" +:+ sql_value (Row.types r)
       +:+ "', '" +:+ sql_value (Row.weaknesses r) +:+ "');" +:+ NL)
  /\ sql_content data = sql_preamble +:+ String.concat "" (map sql_statement data)
  /\ (Forall (fun r => text_row r = true) data ->
      sql_literals (sql_content data) = Some (flat_map text_values data))
  /\ (data <> [] -> forall output_file w,
        write_to_sql data output_file w
        = (tt, World (<[output_file := sql_content data]> (files w)) (console w))).
Proof.
  split; [| split; [reflexivity | split]].
  - intros r. unfold sql_statement, escape_card.
    cbn [Row.id Row.name Row.subtypes Row.level Row.hp Row.types Row.weaknesses].
    rewrite !format_escaped_value. reflexivity.
  - intros Hdata. unfold sql_literals, sql_content.
    rewrite sql_scan_plain by reflexivity.
    rewrite <- (string_app_nil_r (String.concat "" (map sql_statement data))).
    rewrite sql_scan_statements by exact Hdata.
    rewrite (text_rows_values data Hdata). simpl. rewrite app_nil_r. reflexivity.
  - intros Hne output_file w. rewrite write_to_sql_run.
    destruct data; [contradiction | reflexivity].
Qed.

End Sql.

(** ** The statement writer on the sample data *)

Example sql_farfetchd :
  @sql_statement sample_builtins farfetchd_row
  = sql_columns +:+ NL
    +:+ "VALUES ('base1-27', 'Farfetch''d', 'Basic', " +:+ NL
    +:+ "        '20', '50', 'Colorless', 'Lightning(×2)');" +:+ NL.
Proof. reflexivity. Qed.

Lemma sql_statement_literals_witness :
  Forall (fun r => text_row r = true) [farfetchd_row; pikachu_row]
  /\ sql_literals (@sql_content sample_builtins [farfetchd_row; pikachu_row])
     = Some ["base1-27"; "Farfetch'd"; "Basic"; "20"; "50"; "Colorless"; "Lightning(×2)";
             "base1-58"; "Pikachu"; "Basic"; "12"; "40"; "Lightning"; "Fighting(×2)"].
Proof.
  assert (H : Forall (fun r => text_row r = true) [farfetchd_row; pikachu_row])
    by (repeat constructor).
  split; [exact H |].
  exact (proj1 (proj2 (proj2
    (@sql_statement_literals sample_builtins [farfetchd_row; pikachu_row]))) H).
Defined.

(** The extractor hands on a [name] that is an array as it is. *)
Example list_name_extracted :
  @extract_card repr_builtins (PDict list_name_items) = Ok (Some list_name_row).
Proof. reflexivity. Qed.

Example sql_list_name :
  @sql_statement repr_builtins list_name_row
  = "INSERT INTO pokemon_cards (id, name, subtypes, level, hp, types, weaknesses) " +:+ NL
    +:+ "VALUES ('x1-9', '['x']', '', " +:+ NL
    +:+ "        '', '', '', '');" +:+ NL.
Proof. reflexivity. Qed.

(** C6, as stated, fails: only a string has its quotes doubled. The row of
    a record whose [name] is the array ['x'] is written with the quotes of
    [str()] as they are, and the text between the quotes of the statement
    is no longer the field values. *)
Lemma sql_literals_torn_by_list_value :
  ~ (forall (B : Builtins) (r : Row.t),
       sql_literals (sql_statement r) = Some (map format_value (Row.values r))).
Proof.
  intros H. specialize (H repr_builtins list_name_row).
  apply (f_equal (fun o => length <$> o)) in H. vm_compute in H. discriminate H.
Qed.

(** * Properties of the drivers *)

Section Drivers.

Context {B : Builtins}.

Lemma process_multiple_run (E : env) (input_directory output_file : string) (w : world) :
  process_multiple_json_files E input_directory output_file w =
  (tt, match glob_json E input_directory with
       | [] => World (files w) (console w ++ [MsgNoJsonFiles input_directory])
       | json_files =>
           let all_data := aggregate E json_files in
           World (written all_data output_file (files w))
                 (console w ++ MsgFound (length json_files)
                    :: progress_messages E json_files ++ writer_messages all_data
                    ++ [MsgExtracted (length all_data);
                        MsgWritten output_file (sql_path output_file)])
       end).
Proof.
  unfold process_multiple_json_files.
  destruct (glob_json E input_directory) as [| p ps]; [reflexivity |].
  unfold mbind, io_bind. cbn [print].
  rewrite extract_all_run, write_to_csv_run, write_to_sql_run. cbn [app files console].
  destruct (aggregate E (p :: ps)) as [| r rs];
    unfold print; cbn [files console written writer_messages];
    rewrite <- ?app_assoc; reflexivity.
Qed.

Lemma process_single_run (E : env) (json_file_path output_csv : string) (w : world) :
  process_single_file E json_file_path output_csv w =
  (tt, let data := fst (try_extract E json_file_path) in
       World (written data output_csv (files w))
             (console w ++ failure_messages E json_file_path ++ writer_messages data
                ++ [MsgProcessed (length data) json_file_path])).
Proof.
  unfold process_single_file, mbind, io_bind.
  rewrite extract_pokemon_data_run, write_to_csv_run, write_to_sql_run.
  destruct (fst (try_extract E json_file_path)) as [| r rs];
    unfold print; cbn [files console written writer_messages];
    rewrite <- ?app_assoc; reflexivity.
Qed.

Lemma written_twice (data : list Row.t) (output_file : string) (fs : gmap string string) :
  written data output_file (written data output_file fs) = written data output_file fs.
Proof.
  destruct data as [| r rs]; [reflexivity |]. unfold written.
  apply map_eq. intros k. rewrite !lookup_insert.
  repeat case_decide; reflexivity.
Qed.

(** The statement path of a tabular path without a dot in its stem. *)
Lemma sql_path_plain_stem (stem : string) :
  count_char "."%char stem = 0 -> sql_path (stem +:+ ".csv") = stem +:+ ".sql".
Proof.
  unfold sql_path, str_replace.
  induction stem as [| a stem IH]; [reflexivity |].
  rewrite count_char_cons, !string_app_cons.
  destruct (Ascii.eqb a ".") eqn:Ha; [discriminate |]. intros Hstem.
  cbn [replace_from String.prefix].
  destruct (ascii_dec "." a) as [<- | _]; [discriminate |].
  rewrite (IH Hstem). reflexivity.
Qed.

(** C7, on the code: the statement path is the tabular path with every
    occurrence of '.csv' replaced, not its extension swapped. A directory
    name that holds '.csv' is changed too, and a tabular path with another
    extension is left as it is, so that the statements overwrite the table
    just written. *)
Theorem sql_path_replaces_every_occurrence :
  sql_path "cards.csv.d/out.csv" = "cards.sql.d/out.sql"
  /\ sql_path "out.txt" = "out.txt"
  /\ files (snd (process_single_file sample_env "cards/base1.json" "out.txt" empty_world))
     = {[ "out.txt" := sql_content [pikachu_row] ]}
  /\ sql_path "all_pokemon_data.csv" = "all_pokemon_data.sql"
  /\ sql_path default_output_csv = "pokemon_data.sql".
Proof.
  split; [reflexivity |]. split; [reflexivity |]. split; [| split; reflexivity].
  rewrite process_single_run. cbn [snd].
  change (fst (try_extract sample_env "cards/base1.json")) with [pikachu_row].
  cbn [files written empty_world].
  change (sql_path "out.txt") with "out.txt".
  apply map_eq. intros k. rewrite !lookup_insert, lookup_singleton.
  repeat case_decide; try reflexivity; congruence.
Qed.

(** C8 (amended). When the aggregate is empty no file is written or changed. With no
    JSON file in the directory the driver says so and stops; otherwise
    both writers report that there is no data. The same holds for each
    writer called on an empty sequence and for the single-file entry
    point. *)
Theorem empty_aggregate_writes_nothing (E : env) (input_directory output_file : string)
    (w : world) :
  aggregate E (glob_json E input_directory) = [] ->
  files (snd (process_multiple_json_files E input_directory output_file w)) = files w
  /\ (glob_json E input_directory = [] ->
      console (snd (process_multiple_json_files E input_directory output_file w))
      = console w ++ [MsgNoJsonFiles input_directory])
  /\ (glob_json E input_directory <> [] ->
      console (snd (process_multiple_json_files E input_directory output_file w))
      = console w ++ MsgFound (length (glob_json E input_directory))
          :: progress_messages E (glob_json E input_directory)
          ++ [MsgNoData; MsgNoData; MsgExtracted 0;
              MsgWritten output_file (sql_path output_file)])
  /\ write_to_csv [] output_file w = (tt, World (files w) (console w ++ [MsgNoData]))
  /\ write_to_sql [] (sql_path output_file) w
     = (tt, World (files w) (console w ++ [MsgNoData]))
  /\ (forall p, fst (try_extract E p) = [] ->
        files (snd (process_single_file E p output_file w)) = files w).
Proof.
  intros Hempty. rewrite process_multiple_run.
  destruct (glob_json E input_directory) as [| p ps] eqn:Hglob.
  - repeat split; try reflexivity; try contradiction.
    intros p Hp. rewrite process_single_run. cbn [snd]. rewrite Hp. reflexivity.
  - cbn [snd]. rewrite Hempty. repeat split; try reflexivity; try discriminate.
    intros q Hq. rewrite process_single_run. cbn [snd]. rewrite Hq. reflexivity.
Qed.

(** C9. The files a run leaves behind are determined by the files the run
    starts from, the listing of the directory and what each listed file
    loads to; a second run over the same inputs rewrites the outputs with
    the same bytes, so the tabular output after two runs is the tabular
    output after one. *)
Theorem batch_rerun_same_output (E : env) (input_directory output_file : string) (w : world) :
  let w1 := snd (process_multiple_json_files E input_directory output_file w) in
  let w2 := snd (process_multiple_json_files E input_directory output_file w1) in
  files w2 = files w1
  /\ files w2 !! output_file = files w1 !! output_file
  /\ files w1 = match glob_json E input_directory with
                | [] => files w
                | json_files => written (aggregate E json_files) output_file (files w)
                end.
Proof.
  cbv zeta.
  assert (Hrun : forall w0,
    files (snd (process_multiple_json_files E input_directory output_file w0))
    = match glob_json E input_directory with
      | [] => files w0
      | json_files => written (aggregate E json_files) output_file (files w0)
      end).
  { intros w0. rewrite process_multiple_run.
    destruct (glob_json E input_directory); reflexivity. }
  assert (Hsame :
    files (snd (process_multiple_json_files E input_directory output_file
                  (snd (process_multiple_json_files E input_directory output_file w))))
    = files (snd (process_multiple_json_files E input_directory output_file w))).
  { rewrite (Hrun (snd _)), (Hrun w).
    destruct (glob_json E input_directory); [reflexivity | apply written_twice]. }
  split; [exact Hsame |]. split; [rewrite Hsame; reflexivity | apply Hrun].
Qed.

End Drivers.

(** ** The drivers on the sample data *)

Example batch_cards :
  files (snd (@process_multiple_json_files sample_builtins sample_env "cards" "out.csv" empty_world))
    !! "out.csv"
  = Some ("id,name,subtypes,level,hp,types,weaknesses" +:+ CRLF
          +:+ "base1-58,Pikachu,Basic,12,40,Lightning,Fighting(×2)" +:+ CRLF
          +:+ "base1-58,Pikachu,Basic,12,40,Lightning,Fighting(×2)" +:+ CRLF).
Proof. vm_compute. reflexivity. Qed.

(** C8, as stated, fails: for a directory without a JSON file the driver
    prints that no file was found and returns before it calls the
    writers, so neither writer reports. *)
Lemma no_files_no_writer_report :
  ~ (forall (B : Builtins) (E : env) (input_directory output_file : string) (w : world),
       aggregate E (glob_json E input_directory) = [] ->
       In MsgNoData
          (console (snd (process_multiple_json_files E input_directory output_file w)))).
Proof.
  intros H.
  specialize (H sample_builtins sample_env "nowhere" "out.csv" empty_world eq_refl).
  vm_compute in H. destruct H as [H | H]; [discriminate H | exact H].
Qed.

Example no_files_console :
  console (snd (@process_multiple_json_files sample_builtins sample_env "nowhere" "out.csv"
                  empty_world))
  = [MsgNoJsonFiles "nowhere"].
Proof. reflexivity. Qed.

Lemma empty_aggregate_writes_nothing_witness :
  @aggregate sample_builtins sample_env (glob_json sample_env "trainers") = []
  /\ files (snd (@process_multiple_json_files sample_builtins sample_env "trainers" "out.csv"
                   empty_world)) = ∅
  /\ @aggregate sample_builtins sample_env (glob_json sample_env "nowhere") = []
  /\ files (snd (@process_multiple_json_files sample_builtins sample_env "nowhere" "out.csv"
                   empty_world)) = ∅.
Proof.
  split; [reflexivity |]. split.
  - exact (proj1 (@empty_aggregate_writes_nothing sample_builtins sample_env "trainers"
                    "out.csv" empty_world eq_refl)).
  - split; [reflexivity |].
    exact (proj1 (@empty_aggregate_writes_nothing sample_builtins sample_env "nowhere"
                    "out.csv" empty_world eq_refl)).
Defined.

(** * Further properties of the extractor *)

Definition is_list (v : py) : bool :=
  match v with
  | PList _ => true
  | _ => false
  end.

(** A record in the documented input format: an object whose list-valued
    fields have the documented element types. *)
Definition well_formed_record (card : py) : bool :=
  match card with
  | PDict kv => input_format kv
  | _ => false
  end.

(** [subtypes], [types] and [weaknesses], when present, are arrays. *)
Definition array_fields (kv : list (string * py)) : bool :=
  field_conforms is_list kv "subtypes"
  && field_conforms is_list kv "types"
  && field_conforms is_list kv "weaknesses".

(** A file whose second record is not an object, and one whose top-level
    value is an object wrapping the array. *)
Definition wrapped_env : env :=
  Env (fun directory => if String.eqb directory "api" then ["api/cards.json"] else [])
      (fun path =>
         if String.eqb path "api/cards.json" then Ok (PDict [("data", PList [pikachu])])
         else if String.eqb path "api/list.json" then Ok (PList [pikachu; potion; pikachu])
         else Raise FileNotFoundError).

Section ExtractorEdges.

Context {B : Builtins}.

Lemma extract_loop_app (cards1 cards2 : list py) (acc : list Row.t) :
  extract_loop (cards1 ++ cards2) acc =
  match extract_loop cards1 acc with
  | (rows, None) => extract_loop cards2 rows
  | (rows, Some e) => (rows, Some e)
  end.
Proof.
  revert acc. induction cards1 as [| card cards1 IH]; intros acc; [reflexivity |].
  cbn [app extract_loop]. destruct (extract_card card) as [[r |] | e]; [apply IH | apply IH |].
  reflexivity.
Qed.

Lemma well_formed_no_raise (card : py) (e : exn) :
  well_formed_record card = true -> extract_card card <> Raise e.
Proof.
  destruct card; try discriminate. cbn [well_formed_record]. intros Hfmt Hraise.
  destruct (is_target (PDict kv)) eqn:Ht.
  - destruct (extract_card_conforms kv Hfmt Ht) as [r Hr]. congruence.
  - rewrite (extract_card_not_target kv Ht) in Hraise. discriminate.
Qed.

Lemma well_formed_loop (cards : list py) :
  forallb well_formed_record cards = true -> snd (extract_loop cards []) = None.
Proof.
  intros Hwf. destruct (extract_loop cards []) as [rows [e |]] eqn:Hloop; [| reflexivity].
  destruct (extract_loop_failure _ _ _ Hloop) as (done & card & rest & -> & Hcard & _).
  rewrite forallb_app in Hwf. apply andb_true_iff in Hwf as [_ Hwf].
  cbn [forallb] in Hwf. apply andb_true_iff in Hwf as [Hwf _].
  destruct (well_formed_no_raise _ e Hwf Hcard).
Qed.

(** X1. A file that loads to an array of records in the documented input
    format is extracted without an exception: nothing is printed, no file
    is touched, and there is exactly one row per record of the target
    category, in source order. *)
Theorem well_formed_file_extracted (E : env) (p : string) (cards : list py) (w : world) :
  json_load E p = Ok (PList cards) ->
  forallb well_formed_record cards = true ->
  snd (try_extract E p) = None
  /\ extract_pokemon_data E p w = (fst (try_extract E p), w)
  /\ length (fst (try_extract E p)) = length (List.filter is_target cards)
  /\ Forall2 (fun card row => extract_card card = Ok (Some row))
             (List.filter is_target cards) (fst (try_extract E p)).
Proof.
  intros Hload Hwf.
  assert (Htry : try_extract E p = extract_loop cards []).
  { unfold try_extract. rewrite Hload. reflexivity. }
  pose proof (well_formed_loop cards Hwf) as Hnone.
  assert (Hrows : Forall2 (fun card row => extract_card card = Ok (Some row))
                    (List.filter is_target cards) (fst (extract_loop cards []))).
  { apply extract_loop_complete. rewrite <- Hnone. apply surjective_pairing. }
  rewrite Htry. split; [exact Hnone |]. split; [| split].
  - rewrite extract_pokemon_data_run. unfold failure_messages. rewrite Htry, Hnone.
    destruct w as [f c]. cbn [files console]. rewrite app_nil_r. reflexivity.
  - symmetry. exact (Forall2_length _ _ _ Hrows).
  - exact Hrows.
Qed.

(** *** When a target record raises *)

Lemma comprehension_expect_str_ok (items : list py) (l : list string) :
  comprehension expect_str items = Ok l -> forallb is_str items = true.
Proof.
  revert l. induction items as [| v items IH]; intros l; [reflexivity |].
  cbn [comprehension forallb]. destruct v; try discriminate. cbn [expect_str is_str].
  unfold mbind, result_bind.
  destruct (comprehension expect_str items) as [l' |] eqn:Hc; [| discriminate].
  intros _. exact (IH l' eq_refl).
Qed.

Lemma comprehension_expect_str_raises (items : list py) (e : exn) :
  comprehension expect_str items = Raise e -> e = TypeError.
Proof.
  induction items as [| v items IH]; [discriminate |].
  cbn [comprehension]. destruct v; cbn [expect_str]; unfold mbind, result_bind;
    try (intros [= <-]; reflexivity).
  destruct (comprehension expect_str items) as [l' |]; [discriminate |].
  intros [= <-]. apply IH. reflexivity.
Qed.

Lemma joined_field_array (kv : list (string * py)) (key : string) (items : list py) :
  dict_get kv key = Some (PList items) ->
  (forallb is_str items = true /\ exists s, joined_field (PDict kv) key = Ok (PStr s))
  \/ (forallb is_str items = false /\ joined_field (PDict kv) key = Raise TypeError).
Proof.
  intros Hget. rewrite joined_field_unfold, Hget.
  destruct items as [| v items]; [left; split; [reflexivity | eexists; reflexivity] |].
  cbn [truthy]. unfold str_join. cbn [py_iter]. unfold mbind, result_bind. cbv beta iota.
  destruct (comprehension expect_str (v :: items)) as [l |] eqn:Hc.
  - left. split; [exact (comprehension_expect_str_ok _ _ Hc) | eexists; reflexivity].
  - right. pose proof (comprehension_expect_str_raises _ _ Hc). subst e.
    split; [| reflexivity].
    destruct (forallb is_str (v :: items)) eqn:Hall; [| reflexivity].
    destruct (forallb_is_str _ Hall) as [l Hl]. rewrite Hl, comprehension_expect_str in Hc.
    discriminate.
Qed.

Lemma render_weakness_raises (w : py) (e : exn) :
  render_weakness w = Raise e -> is_dict w = false /\ e = AttributeError.
Proof. destruct w; try discriminate; intros [= <-]; split; reflexivity. Qed.

Lemma comprehension_render_raises (ws : list py) (e : exn) :
  comprehension render_weakness ws = Raise e ->
  forallb is_dict ws = false /\ e = AttributeError.
Proof.
  induction ws as [| w ws IH]; [discriminate |].
  cbn [comprehension forallb]. unfold mbind, result_bind.
  destruct (render_weakness w) as [s |] eqn:Hw.
  - destruct (comprehension render_weakness ws) as [l |]; [discriminate |].
    intros [= <-]. destruct (IH eq_refl) as [Hall He].
    rewrite Hall, andb_false_r. split; [reflexivity | exact He].
  - intros [= <-]. destruct (render_weakness_raises _ _ Hw) as [Hd He].
    rewrite Hd. split; [reflexivity | exact He].
Qed.

Lemma weaknesses_field_array (kv : list (string * py)) (ws : list py) :
  dict_get kv "weaknesses" = Some (PList ws) ->
  (forallb is_dict ws = true /\ exists s, weaknesses_field (PDict kv) = Ok (PStr s))
  \/ (forallb is_dict ws = false /\ weaknesses_field (PDict kv) = Raise AttributeError).
Proof.
  intros Hget. rewrite weaknesses_field_unfold, Hget.
  destruct ws as [| w ws]; [left; split; [reflexivity | eexists; reflexivity] |].
  cbn [truthy py_iter]. unfold mbind, result_bind. cbv beta iota.
  destruct (comprehension render_weakness (w :: ws)) as [l |] eqn:Hc.
  - left. split; [| eexists; reflexivity].
    destruct (forallb is_dict (w :: ws)) eqn:Hall; [reflexivity |].
    exfalso. clear Hget. revert l Hc Hall. generalize (w :: ws). intros items.
    induction items as [| v items IH]; intros l Hc Hall; [discriminate |].
    cbn [comprehension forallb] in *. unfold mbind, result_bind in Hc.
    destruct v; try discriminate. cbn [is_dict] in Hall. cbn [render_weakness py_get] in Hc.
    unfold mbind, result_bind in Hc.
    destruct (comprehension render_weakness items) as [l' |] eqn:Hc'; [| discriminate].
    exact (IH l' eq_refl Hall).
  - right. destruct (comprehension_render_raises _ _ Hc) as [Hall ->]. split; [exact Hall |].
    reflexivity.
Qed.

Lemma joined_field_array_cases (kv : list (string * py)) (key : string) :
  field_conforms is_list kv key = true ->
  (field_conforms is_str_list kv key = true
   /\ exists s, joined_field (PDict kv) key = Ok (PStr s))
  \/ (field_conforms is_str_list kv key = false
      /\ joined_field (PDict kv) key = Raise TypeError).
Proof.
  intros Hlist.
  destruct (field_conforms is_str_list kv key) eqn:Hstr.
  - left. split; [reflexivity | exact (joined_field_conforms _ _ Hstr)].
  - right. split; [reflexivity |]. unfold field_conforms in *.
    destruct (dict_get kv key) as [v |] eqn:Hget; [| discriminate].
    destruct v; try discriminate. cbn [is_str_list] in Hstr.
    destruct (joined_field_array _ _ _ Hget) as [[Hall _] | [_ Hraise]]; [congruence |].
    exact Hraise.
Qed.

Lemma weaknesses_field_array_cases (kv : list (string * py)) :
  field_conforms is_list kv "weaknesses" = true ->
  (field_conforms is_dict_list kv "weaknesses" = true
   /\ exists s, weaknesses_field (PDict kv) = Ok (PStr s))
  \/ (field_conforms is_dict_list kv "weaknesses" = false
      /\ weaknesses_field (PDict kv) = Raise AttributeError).
Proof.
  intros Hlist.
  destruct (field_conforms is_dict_list kv "weaknesses") eqn:Hd.
  - left. split; [reflexivity | exact (weaknesses_field_conforms _ Hd)].
  - right. split; [reflexivity |]. unfold field_conforms in *.
    destruct (dict_get kv "weaknesses") as [v |] eqn:Hget; [| discriminate].
    destruct v; try discriminate. cbn [is_dict_list] in Hd.
    destruct (weaknesses_field_array _ _ Hget) as [[Hall _] | [_ Hraise]]; [congruence |].
    exact Hraise.
Qed.

(** X2. For a record of the target category whose [subtypes], [types] and
    [weaknesses], when present, are arrays, the documented element types
    are exactly what a row needs: the record yields a row if and only if
    the first two hold strings only and the third objects only; a
    non-string among [subtypes] or [types] raises TypeError, and otherwise
    a non-object among [weaknesses] raises AttributeError. *)
Theorem target_record_row_or_raise (kv : list (string * py)) :
  array_fields kv = true ->
  is_target (PDict kv) = true ->
  ((exists r, extract_card (PDict kv) = Ok (Some r)) <-> input_format kv = true)
  /\ (field_conforms is_str_list kv "subtypes" && field_conforms is_str_list kv "types" = false ->
      extract_card (PDict kv) = Raise TypeError)
  /\ (field_conforms is_str_list kv "subtypes" && field_conforms is_str_list kv "types" = true ->
      field_conforms is_dict_list kv "weaknesses" = false ->
      extract_card (PDict kv) = Raise AttributeError).
Proof.
  intros Harr Htarget. unfold array_fields in Harr.
  apply andb_true_iff in Harr as [Harr Hw]. apply andb_true_iff in Harr as [Hs Ht].
  pose proof (extract_card_unfold kv) as Hcard. simpl in Htarget. rewrite Htarget in Hcard.
  unfold input_format.
  destruct (joined_field_array_cases kv "subtypes" Hs) as [[Es [s Js]] | [Es Js]];
    rewrite Es, Js in *; clear Es Js; cbn [mbind result_bind andb] in *.
  2: { rewrite Hcard. repeat split; intros; try discriminate; try reflexivity.
       destruct H; discriminate. }
  destruct (joined_field_array_cases kv "types" Ht) as [[Et [t Jt]] | [Et Jt]];
    rewrite Et, Jt in *; clear Et Jt; cbn [mbind result_bind andb] in *.
  2: { rewrite Hcard. repeat split; intros; try discriminate; try reflexivity.
       destruct H; discriminate. }
  destruct (weaknesses_field_array_cases kv Hw) as [[Ew [wk Jw]] | [Ew Jw]];
    rewrite Ew, Jw in *; clear Ew Jw; cbn [mbind result_bind andb] in *.
  - rewrite Hcard. repeat split; intros; try discriminate; try reflexivity.
    eexists. reflexivity.
  - rewrite Hcard. repeat split; intros; try discriminate; try reflexivity.
    destruct H; discriminate.
Qed.

(** X3. A record that is not a JSON object raises AttributeError, and a
    record that raises ends the loop over its file: the rows of the records
    before it are kept and no record after it is looked at, whatever the
    rest of the file holds. *)
Theorem raising_record_ends_file (done : list py) (rows : list Row.t) (card : py) (e : exn) :
  extract_loop done [] = (rows, None) ->
  extract_card card = Raise e ->
  (forall rest, extract_loop (done ++ card :: rest) [] = (rows, Some e))
  /\ (forall other, is_dict other = false -> extract_card other = Raise AttributeError).
Proof.
  intros Hdone Hcard. split.
  - intros rest. rewrite extract_loop_app, Hdone. cbn [extract_loop]. rewrite Hcard.
    reflexivity.
  - intros other Hother. destruct other; try reflexivity. discriminate.
Qed.

(** *** A top-level value that is not an array *)

Lemma py_chars_cons (a : ascii) (s : string) :
  exists ch chs, py_chars (String a s) = ch :: chs.
Proof.
  cbn [py_chars]. destruct (starts_with_continuation s); [| eauto].
  destruct (py_chars s); eauto.
Qed.

Lemma extract_loop_str_first (s : string) (rest : list py) :
  extract_loop (PStr s :: rest) [] = ([], Some AttributeError).
Proof. reflexivity. Qed.

(** X4. A file whose top-level JSON value is not an array never yields a
    row. A non-empty object (such as an API response wrapping the array
    under a key) or a non-empty string is iterated over its keys or
    characters and the first of them raises AttributeError; an empty object
    or string gives no rows and no message; null, a boolean or a number
    raises TypeError. *)
Theorem top_level_not_array (E : env) (p : string) (data : py) :
  json_load E p = Ok data ->
  is_list data = false ->
  fst (try_extract E p) = []
  /\ (forall item kv, data = PDict (item :: kv) ->
        snd (try_extract E p) = Some AttributeError)
  /\ (forall a s, data = PStr (String a s) -> snd (try_extract E p) = Some AttributeError)
  /\ (data = PDict [] \/ data = PStr "" -> snd (try_extract E p) = None)
  /\ (is_dict data = false -> is_str data = false ->
      snd (try_extract E p) = Some TypeError).
Proof.
  intros Hload Hlist. unfold try_extract. rewrite Hload.
  destruct data as [| b | n | f | s | items | kv]; try discriminate;
    try (repeat split; try reflexivity; try discriminate;
         intros; try discriminate; intuition discriminate).
  - destruct s as [| a s].
    + repeat split; try reflexivity; intros; try discriminate.
    + cbn [py_iter]. destruct (py_chars_cons a s) as (ch & chs & ->).
      cbn [map]. rewrite extract_loop_str_first.
      repeat split; try reflexivity; intros; try discriminate.
      intuition discriminate.
  - destruct kv as [| [k v] kv].
    + repeat split; try reflexivity; intros; try discriminate.
    + cbn [py_iter map fst]. rewrite extract_loop_str_first.
      repeat split; try reflexivity; intros; try discriminate.
      intuition discriminate.
Qed.

End ExtractorEdges.

(** ** The edge cases on the sample data *)

Lemma well_formed_file_extracted_witness :
  json_load sample_env "cards/base1.json" = Ok (PList [pikachu; potion])
  /\ forallb well_formed_record [pikachu; potion] = true
  /\ @extract_pokemon_data sample_builtins sample_env "cards/base1.json" empty_world
     = ([pikachu_row], empty_world).
Proof.
  split; [reflexivity |]. split; [reflexivity |].
  exact (proj1 (proj2 (@well_formed_file_extracted sample_builtins sample_env
                         "cards/base1.json" [pikachu; potion] empty_world eq_refl eq_refl))).
Defined.

(** A target record whose [types] holds a number. *)
Definition mixed_types_items : list (string * py) :=
  [("id", PStr "x1-4"); ("supertype", PStr "Pokémon");
   ("types", PList [PStr "Water"; PInt 7])].

Lemma target_record_row_or_raise_witness :
  array_fields mixed_types_items = true
  /\ is_target (PDict mixed_types_items) = true
  /\ @extract_card sample_builtins (PDict mixed_types_items) = Raise TypeError.
Proof.
  split; [reflexivity |]. split; [reflexivity |].
  exact (proj1 (proj2 (@target_record_row_or_raise sample_builtins mixed_types_items
                         eq_refl eq_refl)) eq_refl).
Defined.

Lemma raising_record_ends_file_witness :
  @extract_loop sample_builtins [pikachu; potion] [] = ([pikachu_row], None)
  /\ @extract_card sample_builtins (PInt 5) = Raise AttributeError
  /\ @extract_loop sample_builtins ([pikachu; potion] ++ PInt 5 :: [pikachu; pikachu]) []
     = ([pikachu_row], Some AttributeError).
Proof.
  split; [reflexivity |]. split; [reflexivity |].
  exact (proj1 (@raising_record_ends_file sample_builtins [pikachu; potion] [pikachu_row]
                  (PInt 5) AttributeError eq_refl eq_refl) [pikachu; pikachu]).
Defined.

Lemma top_level_not_array_witness :
  json_load wrapped_env "api/cards.json" = Ok (PDict [("data", PList [pikachu])])
  /\ is_list (PDict [("data", PList [pikachu])]) = false
  /\ fst (@try_extract sample_builtins wrapped_env "api/cards.json") = []
  /\ snd (@try_extract sample_builtins wrapped_env "api/cards.json") = Some AttributeError.
Proof.
  pose proof (@top_level_not_array sample_builtins wrapped_env "api/cards.json"
                (PDict [("data", PList [pikachu])]) eq_refl eq_refl) as (Hrows & Hobj & _).
  split; [reflexivity |]. split; [reflexivity |]. split; [exact Hrows |].
  exact (Hobj _ _ eq_refl).
Defined.

(** * Reading the table back *)

(** A reader of comma-separated text in the convention the writer uses:
    fields are separated by commas and records end with CR LF; a field
    that opens with a double quote runs to the next lone double quote, two
    double quotes in a row inside it standing for one. The text must end
    after a complete record. *)
Inductive csv_state : Type :=
| Plain
| Quoted
| QuoteSeen
| CRSeen.

Fixpoint csv_read (st : csv_state) (field : string) (record : list string) (s : string)
  : option (list (list string)) :=
  match s with
  | EmptyString =>
      match st, field, record with
      | Plain, EmptyString, [] => Some []
      | _, _, _ => None
      end
  | String a rest =>
      match st with
      | Plain =>
          if Ascii.eqb a comma then csv_read Plain EmptyString (record ++ [field]) rest
          else if Ascii.eqb a CR then csv_read CRSeen EmptyString (record ++ [field]) rest
          else if Ascii.eqb a LF then None
          else if Ascii.eqb a dquote then
            match field with
            | EmptyString => csv_read Quoted EmptyString record rest
            | _ => None
            end
          else csv_read Plain (field +:+ String a EmptyString) record rest
      | Quoted =>
          if Ascii.eqb a dquote then csv_read QuoteSeen field record rest
          else csv_read Quoted (field +:+ String a EmptyString) record rest
      | QuoteSeen =>
          if Ascii.eqb a dquote
          then csv_read Quoted (field +:+ String dquote EmptyString) record rest
          else if Ascii.eqb a comma then csv_read Plain EmptyString (record ++ [field]) rest
          else if Ascii.eqb a CR then csv_read CRSeen EmptyString (record ++ [field]) rest
          else None
      | CRSeen =>
          if Ascii.eqb a LF then cons record <$> csv_read Plain EmptyString [] rest
          else None
      end
  end.

Definition csv_records (s : string) : option (list (list string)) :=
  csv_read Plain EmptyString [] s.

(** The state after a field ended by [a], a comma or a carriage return. *)
Definition after_field (a : ascii) : csv_state :=
  if Ascii.eqb a comma then Plain else CRSeen.

Section CsvRoundTrip.

Context {B : Builtins}.

Lemma csv_special_false (a : ascii) :
  csv_special a = false ->
  Ascii.eqb a comma = false /\ Ascii.eqb a dquote = false
  /\ Ascii.eqb a CR = false /\ Ascii.eqb a LF = false.
Proof.
  unfold csv_special. rewrite !orb_false_iff. tauto.
Qed.

Lemma csv_read_plain (s field : string) (record : list string) (rest : string) :
  str_exists csv_special s = false ->
  csv_read Plain field record (s +:+ rest) = csv_read Plain (field +:+ s) record rest.
Proof.
  revert field. induction s as [| a s IH]; intros field Hs.
  - rewrite string_app_nil_r. reflexivity.
  - cbn [str_exists] in Hs. apply orb_false_iff in Hs as [Ha Hs].
    destruct (csv_special_false a Ha) as (Hc & Hq & Hcr & Hlf).
    rewrite string_app_cons. cbn [csv_read]. rewrite Hc, Hcr, Hlf, Hq.
    rewrite (IH _ Hs), string_app_assoc. reflexivity.
Qed.

Lemma csv_read_quoted (s field : string) (record : list string) (rest : string) :
  csv_read Quoted field record (csv_double_quotes s +:+ String dquote rest)
  = csv_read QuoteSeen (field +:+ s) record rest.
Proof.
  revert field. induction s as [| a s IH]; intros field.
  - rewrite string_app_nil_r. cbn [csv_double_quotes]. rewrite string_app_nil_l.
    cbn [csv_read]. rewrite Ascii.eqb_refl. reflexivity.
  - cbn [csv_double_quotes]. destruct (Ascii.eqb a dquote) eqn:Ha.
    + apply Ascii.eqb_eq in Ha. subst a.
      rewrite !string_app_cons. cbn [csv_read]. rewrite Ascii.eqb_refl.
      rewrite IH, string_app_assoc. reflexivity.
    + rewrite string_app_cons. cbn [csv_read]. rewrite Ha.
      rewrite IH, string_app_assoc. reflexivity.
Qed.

(** A field as the writer renders it, then a comma or a carriage return:
    the reader adds the field's value to the record. *)
Lemma csv_read_field (s : string) (a : ascii) (record : list string) (rest : string) :
  a = comma \/ a = CR ->
  csv_read Plain EmptyString record (csv_field s +:+ String a rest)
  = csv_read (after_field a) EmptyString (record ++ [s]) rest.
Proof.
  intros Ha. unfold csv_field. destruct (str_exists csv_special s) eqn:Hs.
  - rewrite string_app_cons. cbn [csv_read].
    change (Ascii.eqb dquote comma) with false. change (Ascii.eqb dquote CR) with false.
    change (Ascii.eqb dquote LF) with false. rewrite Ascii.eqb_refl.
    rewrite string_app_assoc, string_app_cons, string_app_nil_l, csv_read_quoted.
    rewrite string_app_nil_l. cbn [csv_read].
    destruct Ha as [-> | ->]; reflexivity.
  - rewrite csv_read_plain by exact Hs. rewrite string_app_nil_l. cbn [csv_read].
    destruct Ha as [-> | ->]; reflexivity.
Qed.

Lemma csv_read_writerow (field : string) (fields : list string) (record : list string)
    (rest : string) :
  csv_read Plain EmptyString record (csv_writerow (field :: fields) +:+ rest)
  = cons (record ++ field :: fields) <$> csv_read Plain EmptyString [] rest.
Proof.
  unfold csv_writerow. revert field record.
  induction fields as [| f fields IH]; intros field record.
  - cbn [map String.concat]. unfold CRLF.
    rewrite string_app_assoc, string_app_cons, csv_read_field by (right; reflexivity).
    rewrite string_app_cons, string_app_nil_l. reflexivity.
  - change (String.concat "," (map csv_field (field :: f :: fields)))
      with (csv_field field +:+ "," +:+ String.concat "," (map csv_field (f :: fields))).
    rewrite !string_app_assoc.
    change ("," +:+ String.concat "," (map csv_field (f :: fields)) +:+ CRLF +:+ rest)
      with (String comma (String.concat "," (map csv_field (f :: fields)) +:+ CRLF +:+ rest)).
    rewrite csv_read_field by (left; reflexivity).
    change (after_field comma) with Plain.
    rewrite <- string_app_assoc, IH, <- app_assoc. reflexivity.
Qed.

Lemma csv_read_rows (data : list Row.t) (rest : string) :
  csv_read Plain EmptyString [] (String.concat "" (map csv_dictrow data) +:+ rest)
  = app (map (fun r => map csv_text (Row.values r)) data)
      <$> csv_read Plain EmptyString [] rest.
Proof.
  induction data as [| r data IH].
  - cbn [map String.concat]. rewrite string_app_nil_l.
    destruct (csv_read Plain EmptyString [] rest); reflexivity.
  - cbn [map]. rewrite concat_empty_cons, string_app_assoc.
    unfold csv_dictrow at 1. cbn [Row.values map].
    rewrite csv_read_writerow, IH.
    destruct (csv_read Plain EmptyString [] rest); reflexivity.
Qed.

(** X5. The file the tabular writer leaves reads back, record by record
    and field by field, as the seven column names followed by the values
    of every row in order, whatever commas, double quotes or line breaks
    the values hold. *)
Theorem csv_round_trip (data : list Row.t) (output_file : string) (w : world) :
  data <> [] ->
  exists content,
    files (snd (write_to_csv data output_file w)) !! output_file = Some content
    /\ csv_records content
       = Some (fieldnames :: map (fun r => map csv_text (Row.values r)) data).
Proof.
  intros Hdata. exists (csv_content data). split.
  - rewrite write_to_csv_run. destruct data; [contradiction |].
    cbn [snd files]. apply lookup_insert_eq.
  - unfold csv_records, csv_content, fieldnames.
    rewrite csv_read_writerow.
    rewrite <- (string_app_nil_r (String.concat "" (map csv_dictrow data))), csv_read_rows.
    cbn. rewrite app_nil_r. reflexivity.
Qed.

End CsvRoundTrip.

(** A row with a comma, a double quote and a line feed in its fields. *)
Definition awkward_row : Row.t :=
  Row.Make (PStr "x1-5") (PStr ("Mr." +:+ String LF "Mime")) (PStr "Stage 1, Basic")
    (PStr "") PNone (PStr (String dquote "Psychic")) (PStr "").

Lemma csv_round_trip_witness :
  [awkward_row] <> []
  /\ csv_records (@csv_content sample_builtins [awkward_row])
     = Some [fieldnames;
             ["x1-5"; "Mr." +:+ String LF "Mime"; "Stage 1, Basic"; ""; "";
              String dquote "Psychic"; ""]].
Proof.
  split; [discriminate |].
  destruct (@csv_round_trip sample_builtins [awkward_row] "out.csv" empty_world
              ltac:(discriminate)) as (content & Hfile & Hread).
  vm_compute in Hfile. injection Hfile as <-. exact Hread.
Defined.

(** * Further properties of the drivers *)

(** [old in s] *)
Fixpoint occurs (old s : string) : bool :=
  match s with
  | EmptyString => String.prefix old EmptyString
  | String _ rest => String.prefix old s || occurs old rest
  end.

(** [main], with the paths it is given in the source. *)
Definition main `{Builtins} (E : env) : io unit :=
  let input_directory := "." in
  let output_file := "all_pokemon_data.csv" in
  process_multiple_json_files E input_directory output_file.

Section DriverPaths.

Context {B : Builtins}.

(** [s.replace(old, new)] is [s] when [old] does not occur in [s]. *)
Lemma str_replace_absent (old new s : string) :
  occurs old s = false -> str_replace old new s = s.
Proof.
  intros Hocc. unfold str_replace.
  destruct old as [| o old]; [destruct s; discriminate |].
  induction s as [| a s IH]; [reflexivity |].
  cbn [occurs] in Hocc. apply orb_false_iff in Hocc as [Hp Hocc].
  cbn [replace_from]. rewrite Hp, (IH Hocc). reflexivity.
Qed.

(** X6. For a tabular path without '.csv' in it the statement path is the
    tabular path itself, so a run with rows leaves one file at that path
    and it holds the statements: the table written first is overwritten.
    This holds for the batch driver and for the single-file entry point. *)
Theorem path_without_csv_overwritten (output_file : string) :
  occurs ".csv" output_file = false ->
  sql_path output_file = output_file
  /\ (forall (E : env) (input_directory : string) (w : world),
        aggregate E (glob_json E input_directory) <> [] ->
        files (snd (process_multiple_json_files E input_directory output_file w))
        = <[output_file := sql_content (aggregate E (glob_json E input_directory))]> (files w))
  /\ (forall (E : env) (p : string) (w : world),
        fst (try_extract E p) <> [] ->
        files (snd (process_single_file E p output_file w))
        = <[output_file := sql_content (fst (try_extract E p))]> (files w)).
Proof.
  intros Hocc.
  assert (Hpath : sql_path output_file = output_file) by exact (str_replace_absent _ _ _ Hocc).
  split; [exact Hpath |]. split.
  - intros E input_directory w Hrows. rewrite process_multiple_run.
    destruct (glob_json E input_directory) as [| p ps]; [contradiction |].
    cbn [snd files]. destruct (aggregate E (p :: ps)) as [| r rs]; [contradiction |].
    unfold written. rewrite Hpath. apply insert_insert_eq.
  - intros E p w Hrows. rewrite process_single_run. cbn [snd files].
    destruct (fst (try_extract E p)) as [| r rs]; [contradiction |].
    unfold written. rewrite Hpath. apply insert_insert_eq.
Qed.

Lemma prefix_csv_straddle (a : ascii) (stem : string) :
  String.prefix ".csv" (String a stem) = false ->
  String.prefix ".csv" (String a (stem +:+ ".csv")) = false.
Proof.
  destruct stem as [| c1 [| c2 [| c3 stem]]]; rewrite ?string_app_cons, ?string_app_nil_l;
    cbn [String.prefix];
    repeat match goal with
           | |- context [ascii_dec ?x ?y] => destruct (ascii_dec x y)
           end;
    try reflexivity; try discriminate.
  destruct stem; discriminate.
Qed.

Lemma sql_path_stem (stem : string) :
  occurs ".csv" stem = false -> sql_path (stem +:+ ".csv") = stem +:+ ".sql".
Proof.
  unfold sql_path, str_replace.
  induction stem as [| a stem IH]; [reflexivity |].
  cbn [occurs]. intros Hocc. apply orb_false_iff in Hocc as [Hp Hocc].
  rewrite !string_app_cons. cbn [replace_from].
  rewrite (prefix_csv_straddle a stem Hp), (IH Hocc). reflexivity.
Qed.

Lemma string_app_inv_head (s t1 t2 : string) : s +:+ t1 = s +:+ t2 -> t1 = t2.
Proof.
  induction s as [| a s IH]; [trivial |].
  rewrite !string_app_cons. intros [= H]. exact (IH H).
Qed.

Lemma written_lookup_other (data : list Row.t) (output_file k : string)
    (fs : gmap string string) :
  k <> output_file -> k <> sql_path output_file ->
  written data output_file fs !! k = fs !! k.
Proof.
  intros H1 H2. destruct data; [reflexivity |]. unfold written.
  rewrite !lookup_insert_ne by congruence. reflexivity.
Qed.

(** X7. For a tabular path that ends in '.csv' and has no other '.csv' in
    it, the statement path is that path with the extension swapped for
    '.sql'; the two paths differ, and a run with rows leaves the table in
    the first and the statements in the second. *)
Theorem final_extension_swapped (stem : string) :
  occurs ".csv" stem = false ->
  sql_path (stem +:+ ".csv") = stem +:+ ".sql"
  /\ sql_path (stem +:+ ".csv") <> stem +:+ ".csv"
  /\ forall (E : env) (input_directory : string) (w : world),
       aggregate E (glob_json E input_directory) <> [] ->
       let w' := snd (process_multiple_json_files E input_directory (stem +:+ ".csv") w) in
       files w' !! (stem +:+ ".csv")
         = Some (csv_content (aggregate E (glob_json E input_directory)))
       /\ files w' !! (stem +:+ ".sql")
          = Some (sql_content (aggregate E (glob_json E input_directory))).
Proof.
  intros Hocc. pose proof (sql_path_stem stem Hocc) as Hpath.
  assert (Hne : stem +:+ ".sql" <> stem +:+ ".csv").
  { intros H. apply string_app_inv_head in H. discriminate. }
  split; [exact Hpath |]. split; [rewrite Hpath; exact Hne |].
  intros E input_directory w Hrows. cbv zeta. rewrite process_multiple_run.
  destruct (glob_json E input_directory) as [| p ps]; [contradiction |].
  cbn [snd files]. destruct (aggregate E (p :: ps)) as [| r rs]; [contradiction |].
  unfold written. rewrite Hpath. split.
  - rewrite lookup_insert_ne by exact Hne. apply lookup_insert_eq.
  - apply lookup_insert_eq.
Qed.

(** X8. Neither driver touches a file other than its two output paths:
    every other file is left as it was, and no file is ever removed. *)
Theorem drivers_frame (E : env) (source output_file k : string) (w : world) :
  k <> output_file -> k <> sql_path output_file ->
  files (snd (process_multiple_json_files E source output_file w)) !! k = files w !! k
  /\ files (snd (process_single_file E source output_file w)) !! k = files w !! k
  /\ (forall k', is_Some (files w !! k') ->
        is_Some (files (snd (process_multiple_json_files E source output_file w)) !! k')
        /\ is_Some (files (snd (process_single_file E source output_file w)) !! k')).
Proof.
  intros H1 H2.
  assert (Hkeep : forall data k', is_Some (files w !! k') ->
            is_Some (written data output_file (files w) !! k')).
  { intros data k' Hk. destruct data; [exact Hk |]. unfold written.
    rewrite !lookup_insert. repeat case_decide; eauto. }
  rewrite process_multiple_run, process_single_run. cbn [snd].
  destruct (glob_json E source) as [| p ps]; cbn [files].
  - split; [reflexivity |]. split; [apply written_lookup_other; assumption |].
    intros k' Hk. split; [exact Hk | apply Hkeep, Hk].
  - split; [apply written_lookup_other; assumption |].
    split; [apply written_lookup_other; assumption |].
    intros k' Hk. split; apply Hkeep, Hk.
Qed.

(** X9. [main] reads the current directory and touches no file other than
    all_pokemon_data.csv and all_pokemon_data.sql; when the directory
    yields rows these hold the table and the statements of the aggregate,
    and when it lists no JSON file [main] only says so. *)
Theorem main_outputs (E : env) (w : world) :
  (forall k, k <> "all_pokemon_data.csv" -> k <> "all_pokemon_data.sql" ->
     files (snd (main E w)) !! k = files w !! k)
  /\ (aggregate E (glob_json E ".") <> [] ->
      files (snd (main E w)) !! "all_pokemon_data.csv"
        = Some (csv_content (aggregate E (glob_json E ".")))
      /\ files (snd (main E w)) !! "all_pokemon_data.sql"
         = Some (sql_content (aggregate E (glob_json E "."))))
  /\ (glob_json E "." = [] ->
      main E w = (tt, World (files w) (console w ++ [MsgNoJsonFiles "."]))).
Proof.
  unfold main. cbv zeta. rewrite process_multiple_run.
  change (sql_path "all_pokemon_data.csv") with "all_pokemon_data.sql".
  destruct (glob_json E ".") as [| p ps]; cbn [snd files].
  - split; [reflexivity |]. split; [contradiction | reflexivity].
  - split; [| split; [| discriminate]].
    + intros k H1 H2. apply written_lookup_other; assumption.
    + intros Hrows. destruct (aggregate E (p :: ps)) as [| r rs]; [contradiction |].
      unfold written. change (sql_path "all_pokemon_data.csv") with "all_pokemon_data.sql".
      split.
      * rewrite lookup_insert_ne by discriminate. apply lookup_insert_eq.
      * apply lookup_insert_eq.
Qed.

(** X10. On a directory that lists a single JSON file the batch driver
    leaves the same files as the single-file entry point on that file, and
    running the single-file entry point a second time changes no file. *)
Theorem single_file_batch_agree (E : env) (input_directory p output_file : string)
    (w : world) :
  glob_json E input_directory = [p] ->
  files (snd (process_multiple_json_files E input_directory output_file w))
  = files (snd (process_single_file E p output_file w))
  /\ files (snd (process_single_file E p output_file
                   (snd (process_single_file E p output_file w))))
     = files (snd (process_single_file E p output_file w)).
Proof.
  intros Hglob. rewrite process_multiple_run, Hglob, !process_single_run.
  cbn [snd files]. unfold aggregate. cbn [flat_map]. rewrite app_nil_r.
  split; [reflexivity | apply written_twice].
Qed.

End DriverPaths.

(** ** The driver paths on the sample data *)

Lemma path_without_csv_overwritten_witness :
  occurs ".csv" "out.txt" = false
  /\ sql_path "out.txt" = "out.txt"
  /\ files (snd (@process_multiple_json_files sample_builtins sample_env "cards" "out.txt"
                   empty_world))
     = {[ "out.txt" := @sql_content sample_builtins [pikachu_row; pikachu_row] ]}.
Proof.
  pose proof (@path_without_csv_overwritten sample_builtins "out.txt" eq_refl)
    as (Hpath & Hrun & _).
  split; [reflexivity |]. split; [exact Hpath |].
  rewrite (Hrun sample_env "cards" empty_world ltac:(discriminate)).
  reflexivity.
Defined.

Lemma final_extension_swapped_witness :
  occurs ".csv" "exports/v1.2/cards" = false
  /\ sql_path ("exports/v1.2/cards" +:+ ".csv") = "exports/v1.2/cards" +:+ ".sql".
Proof.
  split; [reflexivity |].
  exact (proj1 (@final_extension_swapped sample_builtins "exports/v1.2/cards" eq_refl)).
Defined.

Lemma drivers_frame_witness :
  "notes.txt" <> "out.csv" /\ "notes.txt" <> sql_path "out.csv"
  /\ files (snd (@process_multiple_json_files sample_builtins sample_env "cards" "out.csv"
                   (World {[ "notes.txt" := "keep" ]} [])))
       !! "notes.txt" = Some "keep".
Proof.
  split; [discriminate |]. split; [discriminate |].
  rewrite (proj1 (@drivers_frame sample_builtins sample_env "cards" "out.csv" "notes.txt"
                    (World {[ "notes.txt" := "keep" ]} [])
                    ltac:(discriminate) ltac:(discriminate))).
  reflexivity.
Defined.

Lemma main_outputs_witness :
  @aggregate sample_builtins
     (Env (fun _ => ["base1.json"]) (fun _ => Ok (PList [pikachu]))) ["base1.json"] <> []
  /\ files (snd (@main sample_builtins
                   (Env (fun _ => ["base1.json"]) (fun _ => Ok (PList [pikachu]))) empty_world))
       !! "all_pokemon_data.csv"
     = Some (@csv_content sample_builtins [pikachu_row]).
Proof.
  split; [discriminate |].
  exact (proj1 (proj1 (proj2 (@main_outputs sample_builtins
           (Env (fun _ => ["base1.json"]) (fun _ => Ok (PList [pikachu]))) empty_world))
           ltac:(discriminate))).
Defined.

Lemma single_file_batch_agree_witness :
  glob_json sample_env "trainers" = ["trainers/base1.json"]
  /\ files (snd (@process_multiple_json_files sample_builtins sample_env "trainers" "out.csv"
                   empty_world))
     = files (snd (@process_single_file sample_builtins sample_env "trainers/base1.json"
                     "out.csv" empty_world)).
Proof.
  split; [reflexivity |].
  exact (proj1 (@single_file_batch_agree sample_builtins sample_env "trainers"
                  "trainers/base1.json" "out.csv" empty_world eq_refl)).
Defined.

(** * A string or an object where an array is expected *)

Section Misshapen.

Context {B : Builtins}.

Lemma py_chars_concat (s : string) : String.concat "" (py_chars s) = s.
Proof.
  induction s as [| a s IH]; [reflexivity |].
  cbn [py_chars]. destruct (starts_with_continuation s) eqn:Hc.
  - destruct s as [| b s]; [discriminate |].
    destruct (py_chars_cons b s) as (ch & chs & Hchars). rewrite Hchars in IH |- *.
    rewrite concat_empty_cons in IH |- *. rewrite string_app_cons, IH. reflexivity.
  - rewrite concat_empty_cons, IH. reflexivity.
Qed.

Lemma str_join_chars (sep s : string) :
  str_join sep (PStr s) = Ok (String.concat sep (py_chars s)).
Proof. unfold str_join. cbn [py_iter]. cbn [mbind result_bind]. rewrite comprehension_expect_str. reflexivity. Qed.

Lemma str_join_keys (sep : string) (kv : list (string * py)) :
  str_join sep (PDict kv) = Ok (String.concat sep (map fst kv)).
Proof.
  unfold str_join. cbn [py_iter]. cbn [mbind result_bind].
  rewrite <- (map_map fst PStr), comprehension_expect_str. reflexivity.
Qed.

(** X11. The joined fields take any iterable of strings: a [subtypes] or
    [types] that is a non-empty string is split into its characters, which
    are joined with ', ' (the characters together are the string), and one
    that is a non-empty object yields its keys joined in order. A
    [weaknesses] that is a non-empty string or object raises
    AttributeError, since its characters or keys are strings, not
    objects. *)
Theorem misshapen_list_fields (kv : list (string * py)) (key : string) :
  (forall a s, dict_get kv key = Some (PStr (String a s)) ->
     joined_field (PDict kv) key = Ok (PStr (String.concat ", " (py_chars (String a s))))
     /\ String.concat "" (py_chars (String a s)) = String a s)
  /\ (forall item items, dict_get kv key = Some (PDict (item :: items)) ->
        joined_field (PDict kv) key
        = Ok (PStr (String.concat ", " (map fst (item :: items)))))
  /\ (forall a s, dict_get kv "weaknesses" = Some (PStr (String a s)) ->
        weaknesses_field (PDict kv) = Raise AttributeError)
  /\ (forall item items, dict_get kv "weaknesses" = Some (PDict (item :: items)) ->
        weaknesses_field (PDict kv) = Raise AttributeError).
Proof.
  split; [| split; [| split]].
  - intros a s Hget. split; [| apply py_chars_concat].
    rewrite joined_field_unfold, Hget. cbn [truthy String.eqb negb].
    rewrite str_join_chars. reflexivity.
  - intros item items Hget. rewrite joined_field_unfold, Hget. cbn [truthy].
    rewrite str_join_keys. reflexivity.
  - intros a s Hget. rewrite weaknesses_field_unfold, Hget. cbn [truthy String.eqb negb].
    cbn [py_iter]. destruct (py_chars_cons a s) as (ch & chs & ->). reflexivity.
  - intros [k v] items Hget. rewrite weaknesses_field_unfold, Hget. reflexivity.
Qed.

End Misshapen.

Lemma misshapen_list_fields_witness :
  dict_get [("types", PStr "Féu")] "types" = Some (PStr "Féu")
  /\ joined_field (PDict [("types", PStr "Féu")]) "types" = Ok (PStr "F, é, u").
Proof.
  split; [reflexivity |].
  exact (proj1 (proj1 (@misshapen_list_fields sample_builtins [("types", PStr "Féu")] "types")
                  _ _ eq_refl)).
Defined.
